(** * lab_6_pipeline/pipeline.py: corpus store and pattern search pipeline

    A shallow embedding of [CorpusManager] and of the methods of
    [PatternSearchPipeline] in [src/lab_6_pipeline/pipeline.py], with the
    properties of the design document stated over it, and of the
    configuration, the crawler and the parser of
    [src/lab_5_scrapper/scrapper.py], with properties read off the code.

    Python methods become state-passing functions over the instance they
    mutate; a raised exception is a result of its own, which carries the
    instance as it was when the exception left the method. *)

From Stdlib Require Import ZArith QArith String Ascii.
From stdpp Require Import gmap strings list sorting.

Local Open Scope string_scope.
Local Open Scope Z_scope.

(** ** Results of Python calls *)

(** The exception classes [CorpusManager] raises: two built-in ones and
    the two classes the module declares. *)
Inductive PyException :=
  | FileNotFoundError
  | NotADirectoryError
  | EmptyDirectoryError
  | InconsistentDatasetError.

(** The [__name__] of each class. *)
Definition exception_name (e : PyException) : string :=
  match e with
  | FileNotFoundError => "FileNotFoundError"
  | NotADirectoryError => "NotADirectoryError"
  | EmptyDirectoryError => "EmptyDirectoryError"
  | InconsistentDatasetError => "InconsistentDatasetError"
  end.

Inductive Result (A : Type) :=
  | Returned (a : A)
  | Raised (e : PyException).
Arguments Returned {A} a.
Arguments Raised {A} e.

(** A method body over an instance of type [St]. *)
Definition Py (St A : Type) : Type := St -> Result A * St.

Definition ret {St A} (a : A) : Py St A := fun s => (Returned a, s).
Definition raise {St A} (e : PyException) : Py St A := fun s => (Raised e, s).
Definition bind {St A B} (m : Py St A) (k : A -> Py St B) : Py St B :=
  fun s =>
    match m s with
    | (Returned a, s') => k a s'
    | (Raised e, s') => (Raised e, s')
    end.
Definition get_self {St} : Py St St := fun s => (Returned s, s).
Definition put_self {St} (s : St) : Py St unit := fun _ => (Returned tt, s).

Notation "'let*' x := m 'in' k" := (bind m (fun x => k))
  (at level 10, x name, m at level 100, k at level 200).
Notation "m >> k" := (bind m (fun _ => k))
  (at level 100, k at level 200).

(** [for x in l: body(x)] *)
Fixpoint for_each {St A} (l : list A) (body : A -> Py St unit) : Py St unit :=
  match l with
  | [] => ret tt
  | x :: l' => body x >> for_each l' body
  end.

(** [enumerate(l, start)] *)
Fixpoint enumerate {A} (l : list A) (start : Z) : list (Z * A) :=
  match l with
  | [] => []
  | x :: l' => (start, x) :: enumerate l' (start + 1)
  end.

(** [sorted(l)] for a comparison [leb]: a stable sort, as Python's is. *)
Fixpoint insert_by {A} (leb : A -> A -> bool) (x : A) (l : list A) : list A :=
  match l with
  | [] => [x]
  | y :: l' => if leb x y then x :: l else y :: insert_by leb x l'
  end.

Definition sorted {A} (leb : A -> A -> bool) (l : list A) : list A :=
  foldr (insert_by leb) [] l.

(** [k, k+1, ..., k+n-1]: [range(k, k + n)]. *)
Fixpoint count_from (k : Z) (n : nat) : list Z :=
  match n with
  | O => []
  | S n' => k :: count_from (k + 1) n'
  end.

(** [s.endswith(suffix)] *)
Definition endswith (s suffix : string) : bool :=
  let n := String.length s in
  let k := String.length suffix in
  (k <=? n)%nat && String.eqb (substring (n - k) k s) suffix.

(** ** The file system the corpus lives in *)

(** A directory entry: its name inside the directory and its bytes.
    [path.stat().st_size] is the number of bytes. Paths of one directory
    differ in their last component only, so an entry stands for its path. *)
Record DirEntry := {
  entry_name : string;
  entry_bytes : string
}.

Inductive PathKind :=
  | Absent
  | NotDirectory
  | Directory (entries : list DirEntry).

Definition FileSystem : Type := string -> PathKind.

Definition path_exists (fs : FileSystem) (p : string) : bool :=
  match fs p with Absent => false | _ => true end.

Definition is_dir (fs : FileSystem) (p : string) : bool :=
  match fs p with Directory _ => true | _ => false end.

Definition iterdir (fs : FileSystem) (p : string) : list DirEntry :=
  match fs p with Directory entries => entries | _ => [] end.

(** [path.glob("*_raw.txt")]: the entries of the directory, in the order
    the directory lists them, whose name matches the pattern. *)
Definition glob_raw (fs : FileSystem) (p : string) : list DirEntry :=
  filter (fun e => endswith (entry_name e) "_raw.txt" = true) (iterdir fs p).

Definition st_size (e : DirEntry) : Z := Z.of_nat (String.length (entry_bytes e)).

(** [pathlib] compares paths by their components, as strings. *)
Definition path_leb (a b : DirEntry) : bool :=
  String.leb (entry_name a) (entry_name b).

(** [any(iterable)] over objects that are all truthy, as [Path]s are. *)
Definition any_path (l : list DirEntry) : bool :=
  match l with [] => false | _ :: _ => true end.

(** ** Articles *)

(** Modelled from the spec: the class [Article] of [core_utils.article],
    which is not part of the sources. The design document's ArticleRecord is
    [{id, raw_text, annotated_document}]; the constructor call in
    [_scan_dataset] is [Article(None, article_id)], a url and an id. Only the
    fields the corpus store reads or writes are kept. *)
Record Article := {
  url : option string;
  article_id : Z;
  text : string
}.

Definition Article__init__ (u : option string) (i : Z) : Article :=
  {| url := u; article_id := i; text := "" |}.

(** Modelled from the spec: [from_raw] of [core_utils.article.io], which is
    not part of the sources. "Loads every file's raw text into an
    ArticleRecord": the article it is given comes back with the text of the
    file as its raw text. *)
Definition from_raw (file : DirEntry) (article : Article) : Article :=
  {| url := url article; article_id := article_id article;
     text := entry_bytes file |}.

(** The value of a decimal digit, and the number a string starts with. *)
Definition digit_value (c : ascii) : option Z :=
  let n := Z.of_N (N_of_ascii c) in
  if (48 <=? n) && (n <=? 57) then Some (n - 48) else None.

Fixpoint leading_number (s : string) (acc : Z) : Z :=
  match s with
  | String c s' =>
      match digit_value c with
      | Some d => leading_number s' (10 * acc + d)
      | None => acc
      end
  | EmptyString => acc
  end.

(** Modelled from the spec: [get_article_id_from_filepath] of
    [core_utils.article.article], which is not part of the sources. "Given a
    filepath, returns the embedded integer ID": files are "named with an
    embedded positive-integer ID and a fixed suffix", so the id is the
    decimal number the name starts with. The development below takes the
    function as a parameter; this one instantiates it on concrete
    directories. *)
Definition embedded_id (file : DirEntry) : Z :=
  leading_number (entry_name file) 0.

(** ** CorpusManager *)

Record CorpusManager := {
  path_to_raw_txt_data : string;
  _storage : gmap Z Article
}.

Section CorpusManager.

(** [get_article_id_from_filepath] belongs to [core_utils], which is not
    part of the sources: the methods are read for any such function, and for
    any state of the file system. *)
Variable get_article_id_from_filepath : DirEntry -> Z.
Variable fs : FileSystem.

(** One round of the loop of [_validate_dataset]. *)
Definition check_raw (item : Z * DirEntry) : Py CorpusManager unit :=
  let '(ind, raw) := item in
  if negb (ind =? get_article_id_from_filepath raw) || (st_size raw =? 0)
  then raise InconsistentDatasetError
  else ret tt.

Definition _validate_dataset : Py CorpusManager unit :=
  let* self := get_self in
  if negb (path_exists fs (path_to_raw_txt_data self)) then
    raise FileNotFoundError
  else if negb (is_dir fs (path_to_raw_txt_data self)) then
    raise NotADirectoryError
  else if negb (any_path (iterdir fs (path_to_raw_txt_data self))) then
    raise EmptyDirectoryError
  else
    let raw_files := sorted path_leb (glob_raw fs (path_to_raw_txt_data self)) in
    for_each (enumerate raw_files 1) check_raw.

(** One round of the loop of [_scan_dataset]. *)
Definition register_entry (file : DirEntry) : Py CorpusManager unit :=
  let* self := get_self in
  let article_id := get_article_id_from_filepath file in
  put_self {| path_to_raw_txt_data := path_to_raw_txt_data self;
              _storage := <[article_id := from_raw file (Article__init__ None article_id)]>
                            (_storage self) |}.

Definition _scan_dataset : Py CorpusManager unit :=
  let* self := get_self in
  for_each (glob_raw fs (path_to_raw_txt_data self)) register_entry.

(** [CorpusManager(path)]: the result of the call and the instance as the
    constructor left it. *)
Definition CorpusManager__init__ (path : string) : Result unit * CorpusManager :=
  (_validate_dataset >> _scan_dataset)
    {| path_to_raw_txt_data := path; _storage := ∅ |}.

Definition get_articles : Py CorpusManager (gmap Z Article) :=
  let* self := get_self in
  ret (_storage self).

(** The condition of the loop of [_validate_dataset], negated: the index
    is the id of the file and the file is not empty. *)
Definition raw_ok (item : Z * DirEntry) : bool :=
  (fst item =? get_article_id_from_filepath (snd item))
  && negb (st_size (snd item) =? 0).

(** The storage after the loop of [_scan_dataset] over [files]. *)
Definition register_all (files : list DirEntry) (storage : gmap Z Article)
    : gmap Z Article :=
  foldl (fun m file =>
           <[get_article_id_from_filepath file :=
               from_raw file (Article__init__ None (get_article_id_from_filepath file))]> m)
        storage files.

End CorpusManager.

(** ** PatternSearchPipeline *)

(** Modelled from the spec: [CoNLLUDocument] of [core_utils.pipeline], which
    is not part of the sources. An annotated document is an "ordered sequence
    of sentences; each sentence is an ordered sequence of tokens; each token
    has an integer position (1-based within sentence), a part-of-speech tag,
    a syntactic relation label, and a head position (0 meaning root of
    sentence)". *)
Record ConlluToken := {
  position : Z;
  upos : string;
  deprel : string;
  head : Z
}.

Definition ConlluSentence : Type := list ConlluToken.
Definition CoNLLUDocument : Type := list ConlluSentence.

(** Modelled from the spec: [DiGraph] of [networkx], which is not part of
    the sources. A sentence graph is a "directed graph, one node per token
    position (plus an implicit root marker), edge [head -> dependent]
    labeled with the dependent's relation and POS". *)
Record DiGraph := {
  graph_nodes : list (Z * string);
  graph_edges : list (Z * Z * string)
}.

(** Modelled from the spec: [TreeNode] of [core_utils.pipeline], which is
    not part of the sources: "[{node_id, payload, children}]". *)
#[local] Unset Elimination Schemes.
Inductive TreeNode :=
  | Tree (node_id : Z) (payload : string) (children : list TreeNode).
#[local] Set Elimination Schemes.

Definition tree_children (t : TreeNode) : list TreeNode :=
  match t with Tree _ _ children => children end.

(** The analyzers of the module, both subclasses of [LibraryWrapper]. *)
Inductive LibraryWrapper :=
  | UDPipeAnalyzer
  | StanzaAnalyzer.

(** The values an attribute of a pipeline instance could hold. *)
Inductive PyValue :=
  | PyInt (z : Z)
  | PyStr (s : string)
  | PyStrTuple (items : list string).

(** An instance of [PatternSearchPipeline] is its attribute dictionary. *)
Record PatternSearchPipeline := {
  instance_dict : gmap string PyValue
}.

(** The body of [__init__] is its docstring: no attribute is set. *)
Definition PatternSearchPipeline__init__
    (corpus_manager : CorpusManager) (analyzer : LibraryWrapper) (pos : list string)
    : Result unit * PatternSearchPipeline :=
  ret tt {| instance_dict := ∅ |}.

(** The methods below run over the instance and the arguments they are
    handed by reference, so that what they mutate can be told. A body that
    is a docstring only returns Python's [None]: [None] in the [option]. *)

Definition _make_graphs
    : Py (PatternSearchPipeline * CoNLLUDocument) (option (list DiGraph)) :=
  ret None.

Definition _add_children (node_id : Z)
    : Py (PatternSearchPipeline * (DiGraph * gmap Z Z * TreeNode)) unit :=
  ret tt.

Definition _find_pattern
    : Py (PatternSearchPipeline * list DiGraph) (option (gmap Z (list TreeNode))) :=
  ret None.

(** A token whose head is neither 0 nor the position of a token of the
    sentence. *)
Definition head_in_range (sentence : ConlluSentence) (t : ConlluToken) : bool :=
  (head t =? 0) || existsb (fun t' => position t' =? head t) sentence.

Definition malformed (sentence : ConlluSentence) : bool :=
  negb (forallb (head_in_range sentence) sentence).

(** ** Concrete corpora and documents *)

Definition raw_file (id content : string) : DirEntry :=
  {| entry_name := id ++ "_raw.txt"; entry_bytes := content |}.

(** A file system whose only path is the directory [assets]. *)
Definition assets_with (entries : list DirEntry) : FileSystem :=
  fun p => if String.eqb p "assets" then Directory entries else Absent.

(** Ten articles, as the crawler numbers them: [1_raw.txt] to [10_raw.txt]. *)
Definition ten_articles : list DirEntry :=
  map (fun id => raw_file id ("article " ++ id))
      ["1"; "2"; "3"; "4"; "5"; "6"; "7"; "8"; "9"; "10"].

Definition three_articles : list DirEntry :=
  [raw_file "2" "second"; raw_file "3" "third"; raw_file "1" "first"].

(** Ids 1, 2 and 4: a gap at 3. *)
Definition gap_at_three : list DirEntry :=
  [raw_file "1" "first"; raw_file "2" "second"; raw_file "4" "fourth"].

(** A directory that holds a file, but none named [*_raw.txt]. *)
Definition only_notes : list DirEntry :=
  [{| entry_name := "notes.md"; entry_bytes := "to do" |}].

(** A file system where [assets] is a regular file. *)
Definition assets_is_a_file : FileSystem :=
  fun p => if String.eqb p "assets" then NotDirectory else Absent.

Definition token (p : Z) (tag rel : string) (h : Z) : ConlluToken :=
  {| position := p; upos := tag; deprel := rel; head := h |}.

(** "tokens [(pos=1,head=0,pos_tag=VERB),(pos=2,head=1,pos_tag=NOUN)]" *)
Definition verb_noun_doc : CoNLLUDocument :=
  [[token 1 "VERB" "root" 0; token 2 "NOUN" "obj" 1]].

(** The graph the design document asks for on that sentence. *)
Definition verb_noun_graph : DiGraph :=
  {| graph_nodes := [(0, "ROOT"); (1, "VERB"); (2, "NOUN")];
     graph_edges := [(0, 1, "root"); (1, 2, "obj")] |}.

(** A verb with two noun children, at positions 2 and 3. *)
Definition verb_two_nouns_graph : DiGraph :=
  {| graph_nodes := [(0, "ROOT"); (1, "VERB"); (2, "NOUN"); (3, "NOUN")];
     graph_edges := [(0, 1, "root"); (1, 2, "nsubj"); (1, 3, "obj")] |}.

(** The second sentence has a token whose head, 7, is no position of it. *)
Definition doc_with_bad_head : CoNLLUDocument :=
  [[token 1 "VERB" "root" 0; token 2 "NOUN" "obj" 1];
   [token 1 "VERB" "root" 0; token 2 "NOUN" "obj" 7]].

Definition fresh_pipeline : PatternSearchPipeline :=
  {| instance_dict := ∅ |}.

(** ** The storage as a Python object *)

(** The store above keeps, of the dict [_storage], the record under each
    key. A Python dict is more than that: an object, shared by whoever holds
    a reference to it, that keeps its items in the order in which the keys
    were first assigned. Here a dict is the list of its items, at an address
    of a heap, and the methods are read once more, over the heap. *)

(** [d[k] = v]: the value of a key that is there is replaced where it
    stands; a new key goes to the end. *)
Fixpoint dict_setitem (k : Z) (v : Article) (d : list (Z * Article))
    : list (Z * Article) :=
  match d with
  | [] => [(k, v)]
  | (k', v') :: d' =>
      if k' =? k then (k, v) :: d' else (k', v') :: dict_setitem k v d'
  end.

(** [d.get(k)] *)
Fixpoint dict_get (k : Z) (d : list (Z * Article)) : option Article :=
  match d with
  | [] => None
  | (k', v') :: d' => if k' =? k then Some v' else dict_get k d'
  end.

(** [list(d.keys())] *)
Definition dict_keys (d : list (Z * Article)) : list Z := map fst d.

(** The mapping a dict stands for. *)
Definition mapping_of (d : list (Z * Article)) : gmap Z Article := list_to_map d.

(** The dict at an address. *)
Definition dict_at (heap : gmap nat (list (Z * Article))) (address : nat)
    : list (Z * Article) :=
  default [] (heap !! address).

(** An instance of [CorpusManager] as an object: its path, and the address
    of the dict its attribute [_storage] refers to. *)
Record CorpusManagerObject := {
  object_path : string;
  storage_address : nat
}.

(** The instance as the store above has it. *)
Definition store_of (self : CorpusManagerObject) (heap : gmap nat (list (Z * Article)))
    : CorpusManager :=
  {| path_to_raw_txt_data := object_path self;
     _storage := mapping_of (dict_at heap (storage_address self)) |}.

Section CorpusManagerObjects.

Variable get_article_id_from_filepath : DirEntry -> Z.
Variable fs : FileSystem.

(** [_validate_dataset] assigns nothing: the heap stays as it is. *)
Definition validate_dataset_in_place (self : CorpusManagerObject)
    : Py (gmap nat (list (Z * Article))) unit :=
  fun heap =>
    (fst (_validate_dataset get_article_id_from_filepath fs (store_of self heap)),
     heap).

(** One round of the loop of [_scan_dataset]:
    [self._storage[article_id] = ...] changes the dict where it is. *)
Definition register_entry_in_place (self : CorpusManagerObject) (file : DirEntry)
    : Py (gmap nat (list (Z * Article))) unit :=
  fun heap =>
    let article_id := get_article_id_from_filepath file in
    (Returned tt,
     alter (dict_setitem article_id (from_raw file (Article__init__ None article_id)))
           (storage_address self) heap).

(** The dict after the loop of [_scan_dataset] over [files]. *)
Definition register_all_in_place (files : list DirEntry) (d : list (Z * Article))
    : list (Z * Article) :=
  foldl (fun d file =>
           dict_setitem (get_article_id_from_filepath file)
             (from_raw file (Article__init__ None (get_article_id_from_filepath file))) d)
        d files.

(** The item [_scan_dataset] stores for a file. *)
Definition item_of (file : DirEntry) : Z * Article :=
  (get_article_id_from_filepath file,
   from_raw file (Article__init__ None (get_article_id_from_filepath file))).

Definition scan_dataset_in_place (self : CorpusManagerObject)
    : Py (gmap nat (list (Z * Article))) unit :=
  for_each (glob_raw fs (object_path self)) (register_entry_in_place self).

(** [CorpusManager(path)]: [self._storage = {}] makes a new dict, at an
    address nothing is at yet. The caller gets the instance when the
    constructor returns. *)
Definition new_CorpusManager (path : string)
    : gmap nat (list (Z * Article))
      -> Result CorpusManagerObject * gmap nat (list (Z * Article)) :=
  fun heap =>
    let self := {| object_path := path; storage_address := fresh (dom heap) |} in
    match (validate_dataset_in_place self >> scan_dataset_in_place self)
            (<[storage_address self := []]> heap) with
    | (Returned _, heap') => (Returned self, heap')
    | (Raised e, heap') => (Raised e, heap')
    end.


End CorpusManagerObjects.





(** * lab_5_scrapper/scrapper.py *)

Module Scrapper.

(** ** Python values and errors *)

(** The exception classes of the module, and the built-in ones its code can
    run into. Messages are left out. *)
Inductive PyError :=
  | IncorrectSeedURLError
  | NumberOfArticlesOutOfRangeError
  | IncorrectNumberOfArticlesError
  | IncorrectHeadersError
  | IncorrectEncodingError
  | IncorrectTimeoutError
  | IncorrectVerifyError
  | TypeError
  | KeyError (key : string)
  | AttributeError
  | OSError
  | FileExistsError
  | NotADirectoryError
  | FileNotFoundError
  | JSONDecodeError
  | RequestException.

Inductive Outcome (A : Type) :=
  | Ok (a : A)
  | Err (e : PyError).
Arguments Ok {A} a.
Arguments Err {A} e.

(** A [float]: a rational when finite. *)
Inductive PyFloat :=
  | Finite (q : Q)
  | PlusInfinity
  | MinusInfinity
  | NaN.

(** What [json.load] returns. A dict lists each of its keys once. *)
#[local] Unset Elimination Schemes.
Inductive JSON :=
  | JNull
  | JBool (b : bool)
  | JInt (z : Z)
  | JFloat (f : PyFloat)
  | JStr (s : string)
  | JList (items : list JSON)
  | JDict (members : list (string * JSON)).
#[local] Set Elimination Schemes.

(** [isinstance(v, list)], [dict], [str], [bool], and [int]: a [bool] is an
    [int] too. *)
Definition is_list (v : JSON) : bool := match v with JList _ => true | _ => false end.
Definition is_dict (v : JSON) : bool := match v with JDict _ => true | _ => false end.
Definition is_str (v : JSON) : bool := match v with JStr _ => true | _ => false end.
Definition is_bool (v : JSON) : bool := match v with JBool _ => true | _ => false end.
Definition is_int (v : JSON) : bool :=
  match v with JInt _ | JBool _ => true | _ => false end.

(** The number an [int] is; [True] is 1 and [False] is 0. Asked of ints only. *)
Definition int_value (v : JSON) : Z :=
  match v with
  | JInt z => z
  | JBool true => 1
  | _ => 0
  end.

(** [n < v] for an int [n]: numbers compare, anything else is a
    [TypeError]. *)
Definition int_lt (n : Z) (v : JSON) : Outcome bool :=
  match v with
  | JInt _ | JBool _ => Ok (n <? int_value v)
  | JFloat (Finite q) => Ok (negb (Qle_bool q (inject_Z n)))
  | JFloat PlusInfinity => Ok true
  | JFloat _ => Ok false
  | _ => Err TypeError
  end.

(** [for x in v]: the items of a list, the characters of a string, the keys
    of a dict; nothing else can be iterated. *)
Fixpoint characters (s : string) : list JSON :=
  match s with
  | EmptyString => []
  | String c s' => JStr (String c EmptyString) :: characters s'
  end.

Definition iterate (v : JSON) : Outcome (list JSON) :=
  match v with
  | JList items => Ok items
  | JStr s => Ok (characters s)
  | JDict members => Ok (map (fun kv => JStr (fst kv)) members)
  | _ => Err TypeError
  end.

(** [config[key]] on what [json.load] returned. *)
Fixpoint lookup_member (key : string) (members : list (string * JSON)) : option JSON :=
  match members with
  | [] => None
  | (k, v) :: members' => if String.eqb k key then Some v else lookup_member key members'
  end.

Definition subscript (v : JSON) (key : string) : Outcome JSON :=
  match v with
  | JDict members =>
      match lookup_member key members with
      | Some x => Ok x
      | None => Err (KeyError key)
      end
  | _ => Err TypeError
  end.

(** ** Regular expressions *)

(** The part of the syntax of [re] the seed pattern is written in. *)
Inductive regex :=
  | Char (c : ascii)
  | AnyChar
  | Cat (r1 r2 : regex)
  | Opt (r : regex)
  | Empty.

(** A backtracking match of [r] at the head of [s]; [k] judges the rest.
    [?] is greedy: it tries the group first. [.] takes any character but a
    newline. *)
Fixpoint match_at (r : regex) (s : string) (k : string -> bool) : bool :=
  match r with
  | Char c =>
      match s with
      | String c' s' => if Ascii.eqb c' c then k s' else false
      | EmptyString => false
      end
  | AnyChar =>
      match s with
      | String c' s' => if Ascii.eqb c' "010" then false else k s'
      | EmptyString => false
      end
  | Cat r1 r2 => match_at r1 s (fun s' => match_at r2 s' k)
  | Opt r' => match_at r' s k || k s
  | Empty => k s
  end.

(** [re.match(r, s)], as a truth value: a match at the start of [s]. *)
Definition re_match (r : regex) (s : string) : bool :=
  match_at r s (fun _ => true).

Fixpoint literal (s : string) : regex :=
  match s with
  | EmptyString => Empty
  | String c s' => Cat (Char c) (literal s')
  end.

(** What is left of [s] after the prefix [p], when [s] starts with [p]. *)
Fixpoint remove_prefix (p s : string) : option string :=
  match p with
  | EmptyString => Some s
  | String c p' =>
      match s with
      | String c' s' => if Ascii.eqb c' c then remove_prefix p' s' else None
      | EmptyString => None
      end
  end.

(** [r"https?://(www.)?"] *)
Definition seed_url_pattern : regex :=
  Cat (literal "http")
      (Cat (Opt (Char "s"))
           (Cat (literal "://")
                (Opt (Cat (literal "www") AnyChar)))).

(** ** Config *)

(** [ConfigDTO] of [core_utils.config_dto] is not part of the sources: its
    attributes are the ones [Config] reads, and its constructor stores its
    arguments in them, [total_articles_to_find_and_parse] as
    [total_articles]. *)
Record ConfigDTO := {
  seed_urls : JSON;
  headers : JSON;
  total_articles : JSON;
  encoding : JSON;
  timeout : JSON;
  should_verify_certificate : JSON;
  headless_mode : JSON
}.

(** What [open] and [json.load] make of the path of the configuration. *)
Inductive ConfigFile :=
  | NoFile
  | Malformed
  | Parsed (content : JSON).

Definition bind_outcome {A B} (m : Outcome A) (k : A -> Outcome B) : Outcome B :=
  match m with
  | Ok a => k a
  | Err e => Err e
  end.

Notation "'try' x := m 'in' k" := (bind_outcome m (fun x => k))
  (at level 10, x name, m at level 100, k at level 200).

Definition _extract_config_content (file : ConfigFile) : Outcome ConfigDTO :=
  match file with
  | NoFile => Err FileNotFoundError
  | Malformed => Err JSONDecodeError
  | Parsed config =>
      try v_seed_urls := subscript config "seed_urls" in
      try v_headers := subscript config "headers" in
      try v_total := subscript config "total_articles_to_find_and_parse" in
      try v_encoding := subscript config "encoding" in
      try v_timeout := subscript config "timeout" in
      try v_verify := subscript config "should_verify_certificate" in
      try v_headless := subscript config "headless_mode" in
      Ok {| seed_urls := v_seed_urls; headers := v_headers;
            total_articles := v_total; encoding := v_encoding;
            timeout := v_timeout; should_verify_certificate := v_verify;
            headless_mode := v_headless |}
  end.

(** The loop over the seed urls: [re.match] wants a string. *)
Fixpoint check_seed_urls (urls : list JSON) : Outcome unit :=
  match urls with
  | [] => Ok tt
  | JStr seed_url :: urls' =>
      if negb (re_match seed_url_pattern seed_url) then Err IncorrectSeedURLError
      else check_seed_urls urls'
  | _ :: _ => Err TypeError
  end.

Definition _validate_config_content (config : ConfigDTO) : Outcome unit :=
  match seed_urls config with
  | JList urls =>
      try _ := check_seed_urls urls in
      if negb (is_int (total_articles config))
         || (int_value (total_articles config) <=? 0) then
        Err IncorrectNumberOfArticlesError
      else if negb ((1 <=? int_value (total_articles config))
                    && (int_value (total_articles config) <=? 150)) then
        Err NumberOfArticlesOutOfRangeError
      else if negb (is_dict (headers config)) then
        Err IncorrectHeadersError
      else if negb (is_str (encoding config)) then
        Err IncorrectEncodingError
      else if negb (is_int (timeout config))
              || negb ((0 <? int_value (timeout config))
                       && (int_value (timeout config) <? 60)) then
        Err IncorrectTimeoutError
      else if negb (is_bool (should_verify_certificate config))
              || negb (is_bool (headless_mode config)) then
        Err IncorrectVerifyError
      else Ok tt
  | _ => Err IncorrectSeedURLError
  end.

Record Config := {
  path_to_config : string;
  config : ConfigDTO;
  _seed_urls : JSON;
  _headers : JSON;
  _num_articles : JSON;
  _encoding : JSON;
  _timeout : JSON;
  _should_verify_certificate : JSON;
  _headless_mode : JSON
}.

(** [Config(path_to_config)], given what each path holds. *)
Definition Config__init__ (files : string -> ConfigFile) (path : string)
    : Outcome Config :=
  try dto := _extract_config_content (files path) in
  try _ := _validate_config_content dto in
  Ok {| path_to_config := path;
        config := dto;
        _seed_urls := seed_urls dto;
        _headers := headers dto;
        _num_articles := total_articles dto;
        _encoding := encoding dto;
        _timeout := timeout dto;
        _should_verify_certificate := should_verify_certificate dto;
        _headless_mode := headless_mode dto |}.

Definition get_seed_urls (self : Config) : JSON := _seed_urls self.
Definition get_num_articles (self : Config) : JSON := _num_articles self.
Definition get_headers (self : Config) : JSON := _headers self.
Definition get_encoding (self : Config) : JSON := _encoding self.
Definition get_timeout (self : Config) : JSON := _timeout self.
Definition get_verify_certificate (self : Config) : JSON := _should_verify_certificate self.
Definition get_headless_mode (self : Config) : JSON := _headless_mode self.

(** ** Pages *)

(** [requests] and [bs4] are libraries: a page is what the queries of the
    code find in it. A title block is a [div] of class [b-news-item__title]:
    [div.find('a')] is [None] when it has no anchor, and [.get('href')] is
    [None] when the anchor has no [href]. *)
Record TitleDiv := {
  anchor_href : option (option string)
}.

Record Soup := {
  title_divs : list TitleDiv;
  intro_block : option string;
  text_blocks : list string
}.

(** A response: [response.ok], and [BeautifulSoup(response.text,
    'html.parser')]. *)
Record Response := {
  ok : bool;
  soup : Soup
}.

(** A method body over a state of type [St]. *)
Definition Run (St A : Type) : Type := St -> Outcome A * St.

Definition run_ret {St A} (a : A) : Run St A := fun s => (Ok a, s).
Definition run_bind {St A B} (m : Run St A) (k : A -> Run St B) : Run St B :=
  fun s =>
    match m s with
    | (Ok a, s') => k a s'
    | (Err e, s') => (Err e, s')
    end.

Fixpoint run_for_each {St A} (l : list A) (body : A -> Run St unit) : Run St unit :=
  match l with
  | [] => run_ret tt
  | x :: l' => run_bind (body x) (fun _ => run_for_each l' body)
  end.

(** ** Crawler *)

Record Crawler := {
  crawler_config : Config;
  urls : list string;
  url_pattern : string
}.

Definition Crawler__init__ (configuration : Config) : Crawler :=
  {| crawler_config := configuration; urls := [];
     url_pattern := "https://volga.news" |}.

(** The loop of [_extract_url]: [url] ends as the link of the last block. *)
Fixpoint last_href (divs : list TitleDiv) (url : option string)
    : Outcome (option string) :=
  match divs with
  | [] => Ok url
  | div :: divs' =>
      match anchor_href div with
      | None => Err AttributeError
      | Some href => last_href divs' href
      end
  end.

Definition _extract_url (self : Crawler) (article_bs : Soup) : Outcome string :=
  try url := last_href (title_divs article_bs) (Some "") in
  match url with
  | Some u => Ok (url_pattern self ++ u)
  | None => Err TypeError
  end.

Definition get_search_urls (self : Crawler) : JSON :=
  get_seed_urls (crawler_config self).

(** What a crawler has gained over another: urls at the end of its list,
    each starting with the pattern, and nothing else changed. *)
Definition grown_by (self self' : Crawler) (new : list string) : Prop :=
  crawler_config self' = crawler_config self
  /\ url_pattern self' = url_pattern self
  /\ urls self' = (urls self ++ new)%list
  /\ Forall (fun u => String.prefix (url_pattern self) u = true) new.

Section Web.

(** [make_request] hands the url and the configuration to [requests.get]:
    what comes back is the web's to say, at each request anew. *)
Variable web : nat -> JSON -> Config -> Outcome Response.

(** [make_request(url, config)], as the request number [clock]. *)
Definition make_request (url : JSON) (configuration : Config) : Run nat Response :=
  fun clock => (web clock url configuration, S clock).

(** One round of the inner loop of [find_articles], over the crawler and
    the number of requests made so far. *)
Definition visit_seed (seed : JSON) : Run (Crawler * nat) unit :=
  fun '(self, clock) =>
    match make_request seed (crawler_config self) clock with
    | (Err e, clock') => (Err e, (self, clock'))
    | (Ok response, clock') =>
        if negb (ok response) then (Ok tt, (self, clock'))
        else
          match _extract_url self (soup response) with
          | Err e => (Err e, (self, clock'))
          | Ok url =>
              (Ok tt,
               ({| crawler_config := crawler_config self;
                   urls := urls self ++ [url];
                   url_pattern := url_pattern self |}, clock'))
          end
    end.

(** [find_articles]: the [while] loop may go on for ever, so the rounds are
    counted: [None] says the loop is still running after [fuel] tests of its
    condition. *)
Fixpoint find_articles (fuel : nat) (state : Crawler * nat)
    : option (Outcome unit * (Crawler * nat)) :=
  match fuel with
  | O => None
  | S fuel' =>
      match int_lt (Z.of_nat (length (urls (fst state))))
                   (get_num_articles (crawler_config (fst state))) with
      | Err e => Some (Err e, state)
      | Ok false => Some (Ok tt, state)
      | Ok true =>
          match iterate (get_search_urls (fst state)) with
          | Err e => Some (Err e, state)
          | Ok seeds =>
              match run_for_each seeds visit_seed state with
              | (Ok _, state') => find_articles fuel' state'
              | (Err e, state') => Some (Err e, state')
              end
          end
      end
  end.

(** The urls one pass over [seeds] adds to a crawler, tried on one that has
    none. *)
Definition one_pass_urls (seeds : list JSON) (self : Crawler) : list string :=
  urls (fst (snd (run_for_each seeds visit_seed
                    ({| crawler_config := crawler_config self; urls := [];
                        url_pattern := url_pattern self |}, O)))).

(** ** HTMLParser *)

Record HTMLParser := {
  full_url : string;
  parser_article_id : Z;
  parser_config : Config;
  article : Article
}.

Definition HTMLParser__init__ (url : string) (id : Z) (configuration : Config)
    : HTMLParser :=
  {| full_url := url; parser_article_id := id; parser_config := configuration;
     article := Article__init__ (Some url) id |}.

(** [str.strip] is the language's. *)
Variable strip : string -> string.

(** [''.join(l)] *)
Definition join (l : list string) : string := foldr String.append "" l.

Definition _fill_article_with_text (article_soup : Soup) : Run HTMLParser unit :=
  fun self =>
    match intro_block article_soup with
    | None => (Err AttributeError, self)
    | Some intro =>
        let article_text := strip intro :: map strip (text_blocks article_soup) in
        (Ok tt,
         {| full_url := full_url self;
            parser_article_id := parser_article_id self;
            parser_config := parser_config self;
            article := {| url := url (article self);
                          article_id := article_id (article self);
                          text := join article_text |} |})
    end.

(** [parse], over the parser and the number of requests made so far. *)
Definition parse : Run (HTMLParser * nat) Article :=
  fun '(self, clock) =>
    match make_request (JStr (full_url self)) (parser_config self) clock with
    | (Err e, clock') => (Err e, (self, clock'))
    | (Ok response, clock') =>
        match _fill_article_with_text (soup response) self with
        | (Ok _, self') => (Ok (article self'), (self', clock'))
        | (Err e, self') => (Err e, (self', clock'))
        end
    end.

(** The loop of [main] over [crawler.urls]. [to_raw] belongs to
    [core_utils]: the state keeps the articles handed to it, in order, next
    to the number of requests made so far. *)
Definition save_article (configuration : Config) (item : Z * string)
    : Run (list Article * nat) unit :=
  fun '(saved, clock) =>
    let '(ind, url) := item in
    let parser := HTMLParser__init__ url (ind + 1) configuration in
    match parse (parser, clock) with
    | (Ok parsed, (_, clock')) => (Ok tt, ((saved ++ [parsed])%list, clock'))
    | (Err e, (_, clock')) => (Err e, (saved, clock'))
    end.

Definition save_articles (configuration : Config) (crawler : Crawler)
    : Run (list Article * nat) unit :=
  run_for_each (enumerate (urls crawler) 0) (save_article configuration).

End Web.

(** ** The folder of the articles *)

(** A file system as [pathlib] and [shutil] see it: what each path holds, a
    path being its components from the root down. The root is a directory
    and is not listed. In a sound file system, what is listed lies in a
    listed directory, or in the root. *)
Inductive Node :=
  | FileNode
  | DirNode.

Definition kind (fs : gmap (list string) Node) (p : list string) : option Node :=
  match p with
  | [] => Some DirNode
  | _ => fs !! p
  end.

(** [path.parent]; the root is its own parent. *)
Definition parent (p : list string) : list string := removelast p.

Definition sound (fs : gmap (list string) Node) : Prop :=
  forall p node, fs !! p = Some node -> p <> [] /\ kind fs (parent p) = Some DirNode.

(** [shutil.rmtree(d)]: the directory goes, with all that lies in it. The
    root loses all it holds, and then cannot be removed. *)
Definition rmtree (d : list string) : Run (gmap (list string) Node) unit :=
  fun fs =>
    match kind fs d with
    | None => (Err FileNotFoundError, fs)
    | Some FileNode => (Err NotADirectoryError, fs)
    | Some DirNode =>
        match d with
        | [] => (Err OSError, ∅)
        | _ => (Ok tt, filter (fun entry => ~ d `prefix_of` fst entry) fs)
        end
    end.

(** [path.mkdir(parents=True)], walking down from [above] through the
    components [below]: the directories that lack on the way are made; a file
    on the way is a [NotADirectoryError]; when the path itself is there,
    [FileExistsError]. *)
Fixpoint mkdir_parents (above below : list string)
    : Run (gmap (list string) Node) unit :=
  fun fs =>
    match below with
    | [] => (Err FileExistsError, fs)
    | name :: below' =>
        let here := (above ++ [name])%list in
        match below' with
        | [] =>
            match fs !! here with
            | Some _ => (Err FileExistsError, fs)
            | None => (Ok tt, <[here := DirNode]> fs)
            end
        | _ :: _ =>
            match fs !! here with
            | Some FileNode => (Err NotADirectoryError, fs)
            | Some DirNode => mkdir_parents here below' fs
            | None => mkdir_parents here below' (<[here := DirNode]> fs)
            end
        end
    end.

Definition prepare_environment (base_path : list string)
    : Run (gmap (list string) Node) unit :=
  run_bind
    (fun fs =>
       match kind fs base_path with
       | Some _ => rmtree (parent base_path) fs
       | None => (Ok tt, fs)
       end)
    (fun _ => mkdir_parents [] base_path).

(** ** Concrete configurations and pages *)

(** A project folder: the articles in [tmp/articles], a report in [tmp],
    sources in [lab]. *)
Definition project_tree : gmap (list string) Node :=
  list_to_map
    [(["project"], DirNode);
     (["project"; "tmp"], DirNode);
     (["project"; "tmp"; "articles"], DirNode);
     (["project"; "tmp"; "articles"; "1_raw.txt"], FileNode);
     (["project"; "tmp"; "report.pdf"], FileNode);
     (["project"; "lab"], DirNode);
     (["project"; "lab"; "scrapper.py"], FileNode)].


Definition config_with (seeds : list JSON) (total : JSON) : JSON :=
  JDict [("seed_urls", JList seeds);
         ("headers", JDict [("User-Agent", JStr "Mozilla/5.0")]);
         ("total_articles_to_find_and_parse", total);
         ("encoding", JStr "utf-8");
         ("timeout", JInt 5);
         ("should_verify_certificate", JBool true);
         ("headless_mode", JBool false)].

Definition sample_config : JSON :=
  config_with [JStr "https://volga.news/"; JStr "https://volga.news/politics"]
              (JInt 3).

(** The same without the timeout. *)
Definition config_without_timeout : JSON :=
  JDict [("seed_urls", JList [JStr "https://volga.news/"]);
         ("headers", JDict []);
         ("total_articles_to_find_and_parse", JInt 3);
         ("encoding", JStr "utf-8");
         ("should_verify_certificate", JBool true);
         ("headless_mode", JBool false)].

Definition one_file (content : JSON) : string -> ConfigFile :=
  fun path => if String.eqb path "scrapper_config.json" then Parsed content
              else NoFile.

(** The configuration [Config] builds of a file, or of nothing. *)
Definition config_of (content : JSON) : Config :=
  match Config__init__ (one_file content) "scrapper_config.json" with
  | Ok configuration => configuration
  | Err _ =>
      {| path_to_config := ""; config :=
           {| seed_urls := JNull; headers := JNull; total_articles := JNull;
              encoding := JNull; timeout := JNull;
              should_verify_certificate := JNull; headless_mode := JNull |};
         _seed_urls := JNull; _headers := JNull; _num_articles := JNull;
         _encoding := JNull; _timeout := JNull;
         _should_verify_certificate := JNull; _headless_mode := JNull |}
  end.

(** A page with one title block, linking to [href]. *)
Definition page_linking_to (href : string) : Soup :=
  {| title_divs := [{| anchor_href := Some (Some href) |}];
     intro_block := Some " intro "; text_blocks := [" body "] |}.

(** Three title blocks; the second has an anchor without a link. *)
Definition three_title_page : Soup :=
  {| title_divs := [{| anchor_href := Some (Some "/news/1") |};
                    {| anchor_href := Some None |};
                    {| anchor_href := Some (Some "/news/3") |}];
     intro_block := None; text_blocks := [] |}.

(** Two title blocks; the first has no anchor. *)
Definition anchorless_page : Soup :=
  {| title_divs := [{| anchor_href := None |};
                    {| anchor_href := Some (Some "/news/2") |}];
     intro_block := None; text_blocks := [] |}.

(** A web that answers every request with the same page. *)
Definition same_page_web (page : Soup) : nat -> JSON -> Config -> Outcome Response :=
  fun _ _ _ => Ok {| ok := true; soup := page |}.

(** A web that answers every request with an error page. *)
Definition failing_web : nat -> JSON -> Config -> Outcome Response :=
  fun _ _ _ => Ok {| ok := false;
                     soup := {| title_divs := []; intro_block := None;
                                text_blocks := [] |} |}.

(** The crawler of the sample configuration, new and after its run on a web
    where every page links to [/news/1]: two passes over the two seeds. *)
Definition sample_crawler : Crawler := Crawler__init__ (config_of sample_config).

Definition sample_crawled : Crawler :=
  {| crawler_config := config_of sample_config;
     urls := ["https://volga.news/news/1"; "https://volga.news/news/1";
              "https://volga.news/news/1"; "https://volga.news/news/1"];
     url_pattern := "https://volga.news" |}.

End Scrapper.

(** * Properties *)

(** ** Sorting *)

Section Sorting.

Context {A : Type} (leb : A -> A -> bool).

Lemma insert_by_Permutation (x : A) (l : list A) :
  insert_by leb x l ≡ₚ x :: l.
Proof.
  induction l as [|y l IH]; simpl; [done|].
  destruct (leb x y); [done|].
  rewrite IH. apply Permutation_swap.
Qed.

Lemma sorted_Permutation (l : list A) : sorted leb l ≡ₚ l.
Proof.
  induction l as [|x l IH]; simpl; [done|].
  rewrite insert_by_Permutation. by constructor.
Qed.

Lemma sorted_length (l : list A) : length (sorted leb l) = length l.
Proof. apply Permutation_length, sorted_Permutation. Qed.

Hypothesis leb_total : forall x y, leb x y = true \/ leb y x = true.

Lemma insert_by_Sorted (x : A) (l : list A) :
  Sorted (fun a b => leb a b = true) l ->
  Sorted (fun a b => leb a b = true) (insert_by leb x l).
Proof.
  induction 1 as [|y l Hl IH Hhd]; simpl.
  - by repeat constructor.
  - destruct (leb x y) eqn:Hxy.
    + constructor; [by constructor|by constructor].
    + constructor; [done|].
      destruct (leb_total x y) as [Hc|Hc]; [congruence|].
      destruct Hhd as [|z l' Hyz]; simpl.
      * by constructor.
      * destruct (leb x z); by constructor.
Qed.

Lemma sorted_Sorted (l : list A) :
  Sorted (fun a b => leb a b = true) (sorted leb l).
Proof.
  induction l as [|x l IH]; simpl; [constructor|].
  by apply insert_by_Sorted.
Qed.

End Sorting.

Lemma count_from_length k n : length (count_from k n) = n.
Proof. revert k; induction n as [|n IH]; intros k; simpl; [done|]. by rewrite IH. Qed.

Lemma elem_of_count_from k n z :
  z ∈ count_from k n <-> k <= z < k + Z.of_nat n.
Proof.
  revert k; induction n as [|n IH]; intros k; simpl.
  - rewrite elem_of_nil. lia.
  - rewrite elem_of_cons, IH. lia.
Qed.

Lemma count_from_NoDup k n : NoDup (count_from k n).
Proof.
  revert k; induction n as [|n IH]; intros k; simpl; constructor; [|done].
  rewrite elem_of_count_from. lia.
Qed.

Lemma count_from_Sorted k n : Sorted Z.le (count_from k n).
Proof.
  revert k; induction n as [|n IH]; intros k; simpl; constructor; [done|].
  destruct n; simpl; constructor. lia.
Qed.

Lemma Sorted_weaken {A} (R R' : relation A) (l : list A) :
  (forall x y, R x y -> R' x y) -> Sorted R l -> Sorted R' l.
Proof.
  intros HR. induction 1 as [|x l Hl IH Hhd]; constructor; [done|].
  destruct Hhd; constructor; auto.
Qed.

Lemma sorted_Zleb_Sorted (l : list Z) : Sorted Z.le (sorted Z.leb l).
Proof.
  apply (Sorted_weaken (fun a b => Z.leb a b = true)).
  - intros x y. apply Z.leb_le.
  - apply sorted_Sorted. intros x y. rewrite !Z.leb_le. lia.
Qed.

(** A list sorts to [1..N] exactly when it is a rearrangement of [1..N]. *)
Lemma sorted_ids_of_Permutation (ids : list Z) k n :
  ids ≡ₚ count_from k n -> sorted Z.leb ids = count_from k n.
Proof.
  intros Hp. apply (Sorted_unique Z.le).
  - apply sorted_Zleb_Sorted.
  - apply count_from_Sorted.
  - by rewrite sorted_Permutation.
Qed.

(** ** CorpusManager: what the two passes compute *)

Section CorpusManagerProperties.

Variable get_article_id_from_filepath : DirEntry -> Z.
Variable fs : FileSystem.

Local Abbreviation check_raw := (check_raw get_article_id_from_filepath).
Local Abbreviation raw_ok := (raw_ok get_article_id_from_filepath).
Local Abbreviation register_all := (register_all get_article_id_from_filepath).
Local Abbreviation _validate_dataset := (_validate_dataset get_article_id_from_filepath fs).
Local Abbreviation _scan_dataset := (_scan_dataset get_article_id_from_filepath fs).
Local Abbreviation CorpusManager__init__ := (CorpusManager__init__ get_article_id_from_filepath fs).

(** The validation loop raises or returns, and touches nothing. *)
Lemma validation_loop (items : list (Z * DirEntry)) (self : CorpusManager) :
  for_each items check_raw self =
    if forallb raw_ok items then (Returned tt, self)
    else (Raised InconsistentDatasetError, self).
Proof.
  induction items as [|[ind raw] items IH]; simpl; [done|].
  unfold bind, check_raw at 1, raw_ok at 1; simpl.
  destruct (ind =? get_article_id_from_filepath raw); simpl; [|done].
  destruct (st_size raw =? 0); simpl; [done|]. apply IH.
Qed.

(** The loop passes exactly when the ids, in the order of the list, count
    up from the start and no file is empty. *)
Lemma raw_ok_enumerate (files : list DirEntry) (k : Z) :
  forallb raw_ok (enumerate files k) = true <->
  map get_article_id_from_filepath files = count_from k (length files)
  /\ Forall (fun file => st_size file <> 0) files.
Proof.
  revert k; induction files as [|file files IH]; intros k; simpl.
  - split; [by split; [|constructor]|done].
  - rewrite andb_true_iff, IH. unfold raw_ok at 1; simpl.
    rewrite andb_true_iff, negb_true_iff, Z.eqb_eq, Z.eqb_neq.
    rewrite Forall_cons. split.
    + intros [[-> ?] [-> ?]]. done.
    + intros [Heq [? ?]]. injection Heq as -> Heq. done.
Qed.

Lemma validate_dataset_unfold (self : CorpusManager) :
  _validate_dataset self =
    match fs (path_to_raw_txt_data self) with
    | Absent => (Raised FileNotFoundError, self)
    | NotDirectory => (Raised NotADirectoryError, self)
    | Directory [] => (Raised EmptyDirectoryError, self)
    | Directory (_ :: _) =>
        if forallb raw_ok
             (enumerate (sorted path_leb (glob_raw fs (path_to_raw_txt_data self))) 1)
        then (Returned tt, self)
        else (Raised InconsistentDatasetError, self)
    end.
Proof.
  unfold _validate_dataset, bind, get_self, path_exists, is_dir, iterdir; simpl.
  destruct (fs (path_to_raw_txt_data self)) as [| |[|e entries]] eqn:Hfs;
    simpl; try done.
  apply validation_loop.
Qed.

Lemma scan_loop (files : list DirEntry) (self : CorpusManager) :
  for_each files (register_entry get_article_id_from_filepath) self =
    (Returned tt,
     {| path_to_raw_txt_data := path_to_raw_txt_data self;
        _storage := register_all files (_storage self) |}).
Proof.
  revert self; induction files as [|file files IH]; intros self; simpl.
  - by destruct self.
  - unfold bind at 1, register_entry at 1, bind, get_self, put_self; simpl.
    by rewrite IH.
Qed.

Lemma scan_dataset_unfold (self : CorpusManager) :
  _scan_dataset self =
    (Returned tt,
     {| path_to_raw_txt_data := path_to_raw_txt_data self;
        _storage := register_all (glob_raw fs (path_to_raw_txt_data self))
                                 (_storage self) |}).
Proof. unfold _scan_dataset, bind, get_self; simpl. apply scan_loop. Qed.

(** Validation never changes the instance, whatever way it ends. *)
Lemma validate_dataset_frame (self : CorpusManager) :
  snd (_validate_dataset self) = self.
Proof.
  rewrite validate_dataset_unfold.
  destruct (fs _) as [| |[|? ?]]; simpl; try done.
  by destruct (forallb _ _).
Qed.

Lemma init_unfold (path : string) :
  CorpusManager__init__ path =
    let self := {| path_to_raw_txt_data := path; _storage := ∅ |} in
    match fst (_validate_dataset self) with
    | Returned _ =>
        (Returned tt,
         {| path_to_raw_txt_data := path;
            _storage := register_all (glob_raw fs path) ∅ |})
    | Raised e => (Raised e, self)
    end.
Proof.
  unfold CorpusManager__init__, bind; simpl.
  pose proof (validate_dataset_frame
                {| path_to_raw_txt_data := path; _storage := ∅ |}) as Hframe.
  destruct (_validate_dataset _) as [[[]|e] self']; simpl in *; subst self'.
  - by rewrite scan_dataset_unfold.
  - done.
Qed.

(** Every record the scan stores sits under its own id. *)
Lemma register_all_keys (files : list DirEntry) (storage : gmap Z Article) :
  (forall k a, storage !! k = Some a -> article_id a = k) ->
  forall k a, register_all files storage !! k = Some a -> article_id a = k.
Proof.
  revert storage; induction files as [|file files IH]; intros storage Hinv; simpl.
  - done.
  - apply IH. intros k a. rewrite lookup_insert. case_decide.
    + intros [= <-]. by subst k.
    + apply Hinv.
Qed.

(** When the ids of the files differ, each file's record is found under
    its id, and nothing else is stored. *)
Lemma register_all_lookup (files : list DirEntry) (storage : gmap Z Article) k :
  NoDup (map get_article_id_from_filepath files) ->
  register_all files storage !! k =
    match list_find (fun file => get_article_id_from_filepath file = k) files with
    | Some (_, file) => Some (from_raw file (Article__init__ None k))
    | None => storage !! k
    end.
Proof.
  revert storage; induction files as [|file files IH]; intros storage Hnd; simpl.
  - done.
  - apply NoDup_cons in Hnd as [Hnotin Hnd]. rewrite IH by done.
    case_decide as Hk; simpl.
    + subst k. destruct (list_find _ files) as [[i f]|] eqn:Hfind; simpl.
      * apply list_find_Some in Hfind as (Hf & Hid & _).
        exfalso. apply Hnotin. rewrite <- Hid.
        apply list_elem_of_fmap. exists f. split; [done|].
        by eapply list_elem_of_lookup_2.
      * by rewrite lookup_insert_eq.
    + destruct (list_find _ files) as [[i f]|]; simpl; [done|].
      by rewrite lookup_insert_ne.
Qed.

End CorpusManagerProperties.

(** ** CorpusManager: the claims *)

(** What the store does hold once the constructor returned: the ids of the
    raw files are [1..N], the storage has [N] records, and the record under
    each file's id carries that id and the text of that file. *)
Theorem constructed_corpus_is_complete
    (get_article_id_from_filepath : DirEntry -> Z) (fs : FileSystem)
    (path : string) (self : CorpusManager) :
  CorpusManager__init__ get_article_id_from_filepath fs path = (Returned tt, self) ->
  let raw_files := glob_raw fs path in
  sorted Z.leb (map get_article_id_from_filepath raw_files)
    = count_from 1 (length raw_files)
  /\ size (_storage self) = length raw_files
  /\ (forall k, is_Some (_storage self !! k) <-> 1 <= k <= Z.of_nat (length raw_files))
  /\ (forall file, file ∈ raw_files ->
        _storage self !! get_article_id_from_filepath file
        = Some {| url := None;
                  article_id := get_article_id_from_filepath file;
                  text := entry_bytes file |}).
Proof.
  intros Hinit raw_files. rewrite init_unfold in Hinit; simpl in Hinit.
  rewrite validate_dataset_unfold in Hinit; simpl in Hinit.
  destruct (fs path) as [| |[|e entries]] eqn:Hfs; simpl in Hinit; try done.
  destruct (forallb _ _) eqn:Hok; simpl in Hinit; [|done].
  injection Hinit as <-; simpl.
  apply raw_ok_enumerate in Hok as [Hids _]. rewrite sorted_length in Hids.
  fold raw_files in Hids |- *.
  assert (map get_article_id_from_filepath raw_files
          ≡ₚ count_from 1 (length raw_files)) as Hperm.
  { rewrite <- Hids. apply Permutation_map. symmetry. apply sorted_Permutation. }
  assert (NoDup (map get_article_id_from_filepath raw_files)) as Hnd.
  { rewrite Hperm. apply count_from_NoDup. }
  assert (forall k, is_Some (register_all get_article_id_from_filepath raw_files ∅ !! k)
                    <-> k ∈ map get_article_id_from_filepath raw_files) as Hdom.
  { intros k. rewrite register_all_lookup by done.
    destruct (list_find _ raw_files) as [[i f]|] eqn:Hfind.
    - apply list_find_Some in Hfind as (Hf & Hid & _). split; [intros _|by eauto].
      rewrite <- Hid. apply list_elem_of_fmap. exists f.
      split; [done|]. by eapply list_elem_of_lookup_2.
    - rewrite lookup_empty. split; [by intros [? ?]|].
      intros Hin. apply list_elem_of_fmap in Hin as (f & -> & Hf).
      eapply list_find_None, Forall_forall in Hfind; [|exact Hf]. done. }
  split; [by apply sorted_ids_of_Permutation|].
  split; [|split].
  - rewrite <- (length_map get_article_id_from_filepath raw_files).
    rewrite <- size_dom, <- (size_list_to_set (C:=gset Z)) by done.
    f_equal. apply set_eq. intros k.
    rewrite elem_of_dom, elem_of_list_to_set. apply Hdom.
  - intros k. rewrite Hdom, Hperm, elem_of_count_from. lia.
  - intros file Hfile. rewrite register_all_lookup by done.
    destruct (list_find _ raw_files) as [[i f]|] eqn:Hfind.
    + apply list_find_Some in Hfind as (Hf & Hid & _).
      assert (f = file) as ->; [|done].
      apply list_elem_of_lookup in Hfile as [j Hj].
      assert (i = j) as ->; [|congruence].
      eapply (NoDup_lookup (map get_article_id_from_filepath raw_files)); [done|..].
      * rewrite list_lookup_fmap, Hf. simpl. by rewrite Hid.
      * by rewrite list_lookup_fmap, Hj.
    + eapply list_find_None, Forall_forall in Hfind; [|exact Hfile]. done.
Qed.

(** The constructor does succeed when the order of the file names is the
    order of the ids: three articles, listed out of order, are all loaded. *)
Example three_articles_loaded :
  fst (CorpusManager__init__ embedded_id (assets_with three_articles) "assets")
    = Returned tt
  /\ map_to_list
       (_storage (snd (CorpusManager__init__ embedded_id
                         (assets_with three_articles) "assets")))
     ≡ₚ [(1, {| url := None; article_id := 1; text := "first" |});
         (2, {| url := None; article_id := 2; text := "second" |});
         (3, {| url := None; article_id := 3; text := "third" |})].
Proof.
  split; [by vm_compute|].
  vm_compute. apply Permutation_rev.
Qed.

(** C1 (fails on the code). The directory holds [1_raw.txt] to
    [10_raw.txt], each non-empty: its ids, sorted, are exactly 1..10. The
    claim has the constructor succeed with ten records. [sorted] orders the
    paths as strings, so [10_raw.txt] comes first and meets index 1: the
    constructor raises [InconsistentDatasetError] and the storage is empty. *)
Theorem ten_articles_rejected :
  sorted Z.leb (map embedded_id ten_articles) = count_from 1 10
  /\ Forall (fun file => st_size file <> 0) ten_articles
  /\ map entry_name (sorted path_leb ten_articles)
     = ["10_raw.txt"; "1_raw.txt"; "2_raw.txt"; "3_raw.txt"; "4_raw.txt";
        "5_raw.txt"; "6_raw.txt"; "7_raw.txt"; "8_raw.txt"; "9_raw.txt"]
  /\ CorpusManager__init__ embedded_id (assets_with ten_articles) "assets"
     = (Raised InconsistentDatasetError,
        {| path_to_raw_txt_data := "assets"; _storage := ∅ |}).
Proof.
  split; [by vm_compute|]. split; [|split; by vm_compute].
  unfold ten_articles. repeat (constructor; [by vm_compute|]). constructor.
Qed.

(** C2. A directory whose raw files do not carry, once sorted, the ids
    [1..N], or which holds a raw file of length zero: the constructor raises
    [InconsistentDatasetError], and the instance it leaves behind stores no
    record. *)
Theorem inconsistent_dataset_rejected
    (get_article_id_from_filepath : DirEntry -> Z) (fs : FileSystem) (path : string) :
  is_dir fs path = true ->
  sorted Z.leb (map get_article_id_from_filepath (glob_raw fs path))
    <> count_from 1 (length (glob_raw fs path))
  \/ (exists file, file ∈ glob_raw fs path /\ st_size file = 0) ->
  CorpusManager__init__ get_article_id_from_filepath fs path
  = (Raised InconsistentDatasetError,
     {| path_to_raw_txt_data := path; _storage := ∅ |}).
Proof.
  intros Hdir Hbad. rewrite init_unfold; simpl.
  rewrite validate_dataset_unfold; simpl.
  unfold is_dir in Hdir.
  destruct (fs path) as [| |[|e entries]] eqn:Hfs; try done.
  - exfalso. assert (glob_raw fs path = []) as Hnone.
    { unfold glob_raw, iterdir. by rewrite Hfs. }
    rewrite Hnone in Hbad. destruct Hbad as [Hids|(file & Hin & _)].
    + by apply Hids.
    + by apply elem_of_nil in Hin.
  - destruct (forallb _ _) eqn:Hok; simpl; [exfalso|done].
    apply raw_ok_enumerate in Hok as [Hids Hsizes].
    rewrite sorted_length in Hids.
    destruct Hbad as [Hbad|(file & Hin & Hzero)].
    + apply Hbad, sorted_ids_of_Permutation. rewrite <- Hids.
      apply Permutation_map. symmetry. apply sorted_Permutation.
    + rewrite Forall_forall in Hsizes. apply (Hsizes file); [|done].
      by rewrite sorted_Permutation.
Qed.

(** The corpus with ids 1, 2 and 4 is rejected and exposes nothing. *)
Lemma inconsistent_dataset_rejected_witness :
  CorpusManager__init__ embedded_id (assets_with gap_at_three) "assets"
  = (Raised InconsistentDatasetError,
     {| path_to_raw_txt_data := "assets"; _storage := ∅ |}).
Proof.
  apply inconsistent_dataset_rejected.
  - reflexivity.
  - left. vm_compute. discriminate.
Defined.

(** C3 (as stated, fails). A path that does not exist raises the built-in
    [FileNotFoundError], whose name is not [DirectoryNotFoundError]; and a
    directory that holds a file, none of them matching [*_raw.txt], raises
    nothing: the constructor returns with an empty storage. *)
Lemma missing_path_and_unmatched_directory :
  (fst (CorpusManager__init__ embedded_id (assets_with []) "missing")
     = Raised FileNotFoundError
   /\ exception_name FileNotFoundError <> "DirectoryNotFoundError")
  /\ glob_raw (assets_with only_notes) "assets" = []
  /\ CorpusManager__init__ embedded_id (assets_with only_notes) "assets"
     = (Returned tt, {| path_to_raw_txt_data := "assets"; _storage := ∅ |}).
Proof. repeat split; by vm_compute. Qed.

(** C3 (amended). A path that does not exist raises [FileNotFoundError]; a
    path that is no directory raises [NotADirectoryError]; a directory with
    no entry at all raises [EmptyDirectoryError], each time leaving the
    storage empty; and a directory with an entry raises none of the three:
    the constructor returns or raises [InconsistentDatasetError]. *)
Theorem precondition_errors
    (get_article_id_from_filepath : DirEntry -> Z) (fs : FileSystem) (path : string) :
  match fs path with
  | Absent =>
      CorpusManager__init__ get_article_id_from_filepath fs path
      = (Raised FileNotFoundError, {| path_to_raw_txt_data := path; _storage := ∅ |})
  | NotDirectory =>
      CorpusManager__init__ get_article_id_from_filepath fs path
      = (Raised NotADirectoryError, {| path_to_raw_txt_data := path; _storage := ∅ |})
  | Directory [] =>
      CorpusManager__init__ get_article_id_from_filepath fs path
      = (Raised EmptyDirectoryError, {| path_to_raw_txt_data := path; _storage := ∅ |})
  | Directory (_ :: _) =>
      fst (CorpusManager__init__ get_article_id_from_filepath fs path) = Returned tt
      \/ fst (CorpusManager__init__ get_article_id_from_filepath fs path)
         = Raised InconsistentDatasetError
  end.
Proof.
  rewrite init_unfold; simpl. rewrite validate_dataset_unfold; simpl.
  destruct (fs path) as [| |[|e entries]]; try done.
  destruct (forallb _ _); simpl; [by left|by right].
Qed.

(** C10. In the mapping [get_articles] returns after construction, the
    record under key [k] has article id [k]. *)
Theorem storage_keys_are_article_ids
    (get_article_id_from_filepath : DirEntry -> Z) (fs : FileSystem)
    (path : string) (self self' : CorpusManager)
    (articles : gmap Z Article) (k : Z) (article : Article) :
  CorpusManager__init__ get_article_id_from_filepath fs path = (Returned tt, self) ->
  get_articles self = (Returned articles, self') ->
  articles !! k = Some article ->
  article_id article = k.
Proof.
  intros Hinit Hget. rewrite init_unfold in Hinit; simpl in Hinit.
  destruct (fst _); [|done]. injection Hinit as <-.
  injection Hget as <- _. simpl.
  apply register_all_keys. intros ? ?. by rewrite lookup_empty.
Qed.

Lemma storage_keys_are_article_ids_witness :
  article_id {| url := None; article_id := 2; text := "second" |} = 2.
Proof.
  apply (storage_keys_are_article_ids embedded_id (assets_with three_articles)
           "assets"
           (snd (CorpusManager__init__ embedded_id (assets_with three_articles) "assets"))
           (snd (CorpusManager__init__ embedded_id (assets_with three_articles) "assets"))
           (_storage (snd (CorpusManager__init__ embedded_id
                             (assets_with three_articles) "assets")))).
  - by vm_compute.
  - reflexivity.
  - by vm_compute.
Defined.

(** ** PatternSearchPipeline: the claims *)

(** Whatever they are given, the three methods return at once, with
    Python's [None], and leave the instance and their arguments alone. *)
Lemma make_graphs_unfold (self : PatternSearchPipeline) (doc : CoNLLUDocument) :
  _make_graphs (self, doc) = (Returned None, (self, doc)).
Proof. reflexivity. Qed.

Lemma find_pattern_unfold (self : PatternSearchPipeline) (doc_graphs : list DiGraph) :
  _find_pattern (self, doc_graphs) = (Returned None, (self, doc_graphs)).
Proof. reflexivity. Qed.

Lemma add_children_unfold (self : PatternSearchPipeline) (graph : DiGraph)
    (subgraph_to_graph : gmap Z Z) (node_id : Z) (tree_node : TreeNode) :
  _add_children node_id (self, (graph, subgraph_to_graph, tree_node))
  = (Returned tt, (self, (graph, subgraph_to_graph, tree_node))).
Proof. reflexivity. Qed.

(** C4 (fails on the code). On the document of one sentence, a verb at
    position 1 with head 0 and a noun at position 2 with head 1, the claim
    has [_make_graphs] return one graph, with the edges 0 -> 1 and 1 -> 2.
    The method returns [None]: no graph at all. *)
Theorem make_graphs_returns_no_graph :
  _make_graphs (fresh_pipeline, verb_noun_doc)
  = (Returned None, (fresh_pipeline, verb_noun_doc))
  /\ fst (_make_graphs (fresh_pipeline, verb_noun_doc))
     <> Returned (Some [verb_noun_graph]).
Proof. split; [reflexivity|discriminate]. Qed.

(** C5 (fails on the code). On the graph of that sentence the claim has
    [_find_pattern] return a mapping with one entry, for sentence 0: the
    tree of the verb with the noun as its child. The method returns [None],
    which is no mapping. *)
Theorem find_pattern_returns_no_mapping :
  _find_pattern (fresh_pipeline, [verb_noun_graph])
  = (Returned None, (fresh_pipeline, [verb_noun_graph]))
  /\ fst (_find_pattern (fresh_pipeline, [verb_noun_graph]))
     <> Returned (Some {[ 0 := [Tree 1 "VERB" [Tree 2 "NOUN" []]] ]}).
Proof. split; [reflexivity|discriminate]. Qed.

(** C6 (fails on the code). A verb with two noun children, at positions 2
    and 3: the claim has one tree with the two children in that order.
    [_add_children] attaches no child to the tree of the verb, and
    [_find_pattern] returns no match to put in order. *)
Theorem two_children_not_attached :
  snd (snd (snd (_add_children 1
                   (fresh_pipeline,
                    (verb_two_nouns_graph, {[ 1 := 1; 2 := 2; 3 := 3 ]},
                     Tree 1 "VERB" [])))))
  = Tree 1 "VERB" []
  /\ fst (_find_pattern (fresh_pipeline, [verb_two_nouns_graph])) = Returned None
  /\ fst (_find_pattern (fresh_pipeline, [verb_two_nouns_graph]))
     <> Returned (Some {[ 0 := [Tree 1 "VERB" [Tree 2 "NOUN" []; Tree 3 "NOUN" []]] ]}).
Proof. split; [reflexivity|]. split; [reflexivity|discriminate]. Qed.

(** C7 (fails on the code). The second sentence of the document has a token
    with head 7, the first one is well formed. The claim has the second
    sentence skipped, on record, and the work go on with the other sentence,
    whose graph is the one of C4. [_make_graphs] returns [None]: no graph for
    the first sentence either; it leaves the instance without an attribute,
    so nothing is on record; and the search over the graph that was to be
    built returns [None] as well. *)
Theorem bad_head_document_gets_no_graph :
  map malformed doc_with_bad_head = [false; true]
  /\ _make_graphs (fresh_pipeline, doc_with_bad_head)
     = (Returned None, (fresh_pipeline, doc_with_bad_head))
  /\ fst (_make_graphs (fresh_pipeline, doc_with_bad_head))
     <> Returned (Some [verb_noun_graph])
  /\ instance_dict (fst (snd (_make_graphs (fresh_pipeline, doc_with_bad_head)))) = ∅
  /\ fst (_find_pattern (fresh_pipeline, [verb_noun_graph])) = Returned None.
Proof. repeat split; (by vm_compute) || discriminate. Qed.

(** ** CorpusManager: more of what the constructor does *)

(** The order of strings [sorted] relies on is transitive. *)
Lemma string_leb_trans (s1 s2 s3 : string) :
  String.leb s1 s2 = true -> String.leb s2 s3 = true -> String.leb s1 s3 = true.
Proof.
  unfold String.leb. revert s2 s3.
  induction s1 as [|a s1 IH]; intros [|b s2] [|c s3]; simpl; try done.
  unfold Ascii.compare.
  destruct (N.compare_spec (N_of_ascii a) (N_of_ascii b)) as [Hab|Hab|Hab];
    destruct (N.compare_spec (N_of_ascii b) (N_of_ascii c)) as [Hbc|Hbc|Hbc];
    try done.
  - rewrite Hab, Hbc, N.compare_refl. apply IH.
  - intros _ _. rewrite Hab. by apply N.compare_lt_iff in Hbc as ->.
  - intros _ _. rewrite <- Hbc. by apply N.compare_lt_iff in Hab as ->.
  - intros _ _.
    assert (N_of_ascii a < N_of_ascii c)%N as Hac by (by etrans).
    by apply N.compare_lt_iff in Hac as ->.
Qed.

Lemma sorted_paths_StronglySorted (files : list DirEntry) :
  StronglySorted (fun a b => path_leb a b = true) (sorted path_leb files).
Proof.
  apply Sorted_StronglySorted.
  - intros a b c. apply string_leb_trans.
  - apply sorted_Sorted. intros a b. apply String.leb_total.
Qed.

Lemma StronglySorted_lookup {A} (R : relation A) (l : list A) (i j : nat) (x y : A) :
  StronglySorted R l -> l !! i = Some x -> l !! j = Some y -> (i < j)%nat -> R x y.
Proof.
  intros Hl. revert i j. induction Hl as [|z l Hl IH Hall]; intros i j Hi Hj Hij.
  - done.
  - destruct j as [|j]; [lia|]. simpl in Hj. destruct i as [|i]; simpl in Hi.
    + injection Hi as <-. rewrite Forall_forall in Hall.
      apply Hall. by eapply list_elem_of_lookup_2.
    + apply (IH i j); [done..|lia].
Qed.

Lemma count_from_lookup (k : Z) (n i : nat) (z : Z) :
  count_from k n !! i = Some z -> z = k + Z.of_nat i.
Proof.
  revert k i; induction n as [|n IH]; intros k [|i]; simpl; try done.
  - intros [= <-]. lia.
  - intros Hz. apply IH in Hz. lia.
Qed.

(** What differs by name differs: the entries of a directory. *)
Lemma entries_by_name (files : list DirEntry) (a b : DirEntry) :
  NoDup (map entry_name files) -> a ∈ files -> b ∈ files ->
  entry_name a = entry_name b -> a = b.
Proof.
  intros Hnd Ha Hb Hname.
  apply list_elem_of_lookup in Ha as [i Hi]. apply list_elem_of_lookup in Hb as [j Hj].
  assert (i = j) as ->; [|congruence].
  eapply (NoDup_lookup (map entry_name files)); [done|..].
  - by rewrite list_lookup_fmap, Hi.
  - rewrite list_lookup_fmap, Hj. simpl. by rewrite Hname.
Qed.

Lemma constructed_corpus_is_complete_witness :
  size (_storage (snd (CorpusManager__init__ embedded_id
                         (assets_with three_articles) "assets")))
  = length (glob_raw (assets_with three_articles) "assets").
Proof.
  refine (proj1 (proj2 (constructed_corpus_is_complete embedded_id
                          (assets_with three_articles) "assets" _ _))).
  by vm_compute.
Defined.

Lemma init_returns_iff
    (get_article_id_from_filepath : DirEntry -> Z) (fs : FileSystem) (path : string) :
  fst (CorpusManager__init__ get_article_id_from_filepath fs path) = Returned tt
  <-> is_dir fs path = true
      /\ iterdir fs path <> []
      /\ map get_article_id_from_filepath (sorted path_leb (glob_raw fs path))
         = count_from 1 (length (glob_raw fs path))
      /\ Forall (fun file => st_size file <> 0) (glob_raw fs path).
Proof.
  rewrite init_unfold; simpl. rewrite validate_dataset_unfold; simpl.
  unfold is_dir, iterdir.
  destruct (fs path) as [| |[|e entries]] eqn:Hfs; simpl;
    try (split; [done|by intros (? & ? & _)]).
  pose proof (raw_ok_enumerate get_article_id_from_filepath
                (sorted path_leb (glob_raw fs path)) 1) as Hok.
  rewrite sorted_length in Hok.
  assert (Forall (fun file => st_size file <> 0) (sorted path_leb (glob_raw fs path))
          <-> Forall (fun file => st_size file <> 0) (glob_raw fs path)) as Hsizes.
  { by rewrite (sorted_Permutation path_leb). }
  rewrite Hsizes in Hok.
  destruct (forallb _ _); simpl.
  - split; [intros _|done]. destruct Hok as [Hok _].
    destruct (Hok eq_refl) as [Hids Hall]. done.
  - split; [done|]. intros (_ & _ & Hids & Hall).
    destruct Hok as [_ Hok]. by discriminate Hok.
Qed.

(** The constructor returns for exactly the directories that have an entry
    and whose raw files, taken in the order of their names as strings, carry
    the ids 1, 2, ..., N and are not empty. *)
Theorem construction_succeeds_iff
    (get_article_id_from_filepath : DirEntry -> Z) (fs : FileSystem) (path : string) :
  fst (CorpusManager__init__ get_article_id_from_filepath fs path) = Returned tt
  <-> is_dir fs path = true
      /\ iterdir fs path <> []
      /\ map get_article_id_from_filepath (sorted path_leb (glob_raw fs path))
         = count_from 1 (length (glob_raw fs path))
      /\ Forall (fun file => st_size file <> 0) (glob_raw fs path).
Proof. by apply init_returns_iff. Qed.

(** Two raw files whose names, as strings, stand in the other order than
    their ids: the constructor raises [InconsistentDatasetError] and stores
    nothing, whatever else the directory holds. *)
Theorem name_order_against_id_order_rejected
    (get_article_id_from_filepath : DirEntry -> Z) (fs : FileSystem) (path : string)
    (a b : DirEntry) :
  is_dir fs path = true ->
  a ∈ glob_raw fs path ->
  b ∈ glob_raw fs path ->
  get_article_id_from_filepath a < get_article_id_from_filepath b ->
  path_leb a b = false ->
  CorpusManager__init__ get_article_id_from_filepath fs path
  = (Raised InconsistentDatasetError,
     {| path_to_raw_txt_data := path; _storage := ∅ |}).
Proof.
  intros Hdir Ha Hb Hids Hnames.
  pose proof (init_returns_iff get_article_id_from_filepath fs path) as Hiff.
  rewrite init_unfold in Hiff |- *. cbv zeta in Hiff |- *.
  rewrite validate_dataset_unfold in Hiff |- *. simpl in Hiff |- *.
  unfold is_dir in Hdir.
  destruct (fs path) as [| |[|e entries]] eqn:Hfs; try done.
  { unfold glob_raw, iterdir in Ha. rewrite Hfs in Ha. by apply elem_of_nil in Ha. }
  destruct (forallb _ _); simpl in *; [exfalso|done].
  destruct Hiff as [(_ & _ & Hcount & _) _]; [done|].
  rewrite <- (sorted_Permutation path_leb) in Ha, Hb.
  apply list_elem_of_lookup in Ha as [i Hi]. apply list_elem_of_lookup in Hb as [j Hj].
  assert (get_article_id_from_filepath a = 1 + Z.of_nat i) as Hia.
  { apply (count_from_lookup 1 (length (glob_raw fs path))).
    by rewrite <- Hcount, list_lookup_fmap, Hi. }
  assert (get_article_id_from_filepath b = 1 + Z.of_nat j) as Hjb.
  { apply (count_from_lookup 1 (length (glob_raw fs path))).
    by rewrite <- Hcount, list_lookup_fmap, Hj. }
  assert (path_leb a b = true); [|congruence].
  apply (StronglySorted_lookup (fun a b => path_leb a b = true)
           (sorted path_leb (glob_raw fs path)) i j);
    [apply sorted_paths_StronglySorted|done..|lia].
Qed.

Lemma name_order_against_id_order_rejected_witness :
  CorpusManager__init__ embedded_id (assets_with ten_articles) "assets"
  = (Raised InconsistentDatasetError,
     {| path_to_raw_txt_data := "assets"; _storage := ∅ |}).
Proof.
  apply (name_order_against_id_order_rejected embedded_id (assets_with ten_articles)
           "assets" (raw_file "1" "article 1") (raw_file "10" "article 10")).
  - reflexivity.
  - vm_compute. apply list_elem_of_here.
  - vm_compute. do 9 apply list_elem_of_further. apply list_elem_of_here.
  - by vm_compute.
  - by vm_compute.
Defined.

(** A directory that has entries, none of them named [*_raw.txt]: the
    constructor returns, and the store is empty. *)
Theorem directory_without_raw_files_constructs_empty
    (get_article_id_from_filepath : DirEntry -> Z) (fs : FileSystem) (path : string) :
  iterdir fs path <> [] ->
  glob_raw fs path = [] ->
  CorpusManager__init__ get_article_id_from_filepath fs path
  = (Returned tt, {| path_to_raw_txt_data := path; _storage := ∅ |}).
Proof.
  intros Hentries Hnone. rewrite init_unfold; simpl.
  rewrite validate_dataset_unfold; simpl. unfold iterdir in Hentries.
  destruct (fs path) as [| |[|e entries]] eqn:Hfs; try done.
  by rewrite Hnone.
Qed.

Lemma directory_without_raw_files_constructs_empty_witness :
  CorpusManager__init__ embedded_id (assets_with only_notes) "assets"
  = (Returned tt, {| path_to_raw_txt_data := "assets"; _storage := ∅ |}).
Proof.
  apply directory_without_raw_files_constructs_empty.
  - by vm_compute.
  - by vm_compute.
Defined.

(** ** CorpusManager: the storage as an object *)


Lemma dict_get_setitem_ne (k k' : Z) (v : Article) (d : list (Z * Article)) :
  k <> k' -> dict_get k' (dict_setitem k v d) = dict_get k' d.
Proof.
  intros Hne. induction d as [|[k0 v0] d IH]; simpl.
  - by apply Z.eqb_neq in Hne as ->.
  - destruct (k0 =? k) eqn:Hk; simpl.
    + apply Z.eqb_eq in Hk as ->. by apply Z.eqb_neq in Hne as ->.
    + by rewrite IH.
Qed.


(** A new key goes to the end. *)
Lemma dict_setitem_new (k : Z) (v : Article) (d : list (Z * Article)) :
  dict_get k d = None -> dict_setitem k v d = (d ++ [(k, v)])%list.
Proof.
  induction d as [|[k' v'] d IH]; simpl; [done|].
  destruct (k' =? k); [done|]. intros Hget. by rewrite IH.
Qed.

Lemma dict_get_app (k : Z) (d1 d2 : list (Z * Article)) :
  dict_get k (d1 ++ d2)
  = match dict_get k d1 with Some v => Some v | None => dict_get k d2 end.
Proof.
  induction d1 as [|[k' v'] d1 IH]; simpl; [done|]. by destruct (k' =? k).
Qed.


Section CorpusManagerObjectsProperties.

Variable get_article_id_from_filepath : DirEntry -> Z.
Variable fs : FileSystem.

Local Abbreviation item_of := (item_of get_article_id_from_filepath).
Local Abbreviation register_all_in_place :=
  (register_all_in_place get_article_id_from_filepath).
Local Abbreviation scan_dataset_in_place :=
  (scan_dataset_in_place get_article_id_from_filepath fs).
Local Abbreviation validate_dataset_in_place :=
  (validate_dataset_in_place get_article_id_from_filepath fs).
Local Abbreviation new_CorpusManager :=
  (new_CorpusManager get_article_id_from_filepath fs).


(** Files with ids that differ, none of them in the dict yet, are put at its
    end in the order of the list. *)
Lemma register_all_in_place_new (files : list DirEntry) (d : list (Z * Article)) :
  NoDup (map get_article_id_from_filepath files) ->
  (forall file, file ∈ files -> dict_get (get_article_id_from_filepath file) d = None) ->
  register_all_in_place files d = (d ++ map item_of files)%list.
Proof.
  revert d; induction files as [|file files IH]; intros d Hnd Hnew; simpl.
  - by rewrite app_nil_r.
  - apply NoDup_cons in Hnd as [Hfile Hnd].
    rewrite dict_setitem_new by (apply Hnew, list_elem_of_here).
    rewrite IH; [by rewrite <- app_assoc|done|].
    intros file' Hin. rewrite dict_get_app, Hnew by (by apply list_elem_of_further).
    simpl. destruct (Z.eqb_spec (get_article_id_from_filepath file)
                       (get_article_id_from_filepath file')) as [Heq|]; [|done].
    exfalso. apply Hfile. rewrite Heq. apply list_elem_of_fmap. by exists file'.
Qed.



Lemma scan_in_place_unfold (self : CorpusManagerObject)
    (heap : gmap nat (list (Z * Article))) :
  scan_dataset_in_place self heap
  = (Returned tt,
     alter (register_all_in_place (glob_raw fs (object_path self)))
           (storage_address self) heap).
Proof.
  unfold scan_dataset_in_place.
  generalize (glob_raw fs (object_path self)) as files. intros files.
  revert heap; induction files as [|file files IH]; intros heap; simpl.
  - unfold ret. f_equal. apply map_eq. intros a. rewrite lookup_alter.
    case_decide; [|done]. subst a. by destruct (heap !! _).
  - unfold bind, register_entry_in_place at 1. rewrite IH. f_equal.
    apply map_eq. intros a. rewrite !lookup_alter.
    repeat case_decide; simplify_eq; try done. by destruct (heap !! _).
Qed.

(** Validation looks at the path of the instance only, and a validation
    that passes tells the ids of the raw files apart. *)
Lemma validation_by_path (self self' : CorpusManager) :
  path_to_raw_txt_data self = path_to_raw_txt_data self' ->
  fst (_validate_dataset get_article_id_from_filepath fs self)
  = fst (_validate_dataset get_article_id_from_filepath fs self').
Proof.
  intros Hpath. rewrite !validate_dataset_unfold, Hpath.
  destruct (fs _) as [| |[|? ?]]; simpl; try done. by destruct (forallb _ _).
Qed.

Lemma validated_ids_NoDup (self : CorpusManager) :
  fst (_validate_dataset get_article_id_from_filepath fs self) = Returned tt ->
  NoDup (map get_article_id_from_filepath
             (glob_raw fs (path_to_raw_txt_data self))).
Proof.
  rewrite validate_dataset_unfold.
  destruct (fs _) as [| |[|? ?]] eqn:Hfs; simpl; try done.
  destruct (forallb _ _) eqn:Hok; [intros _|done].
  apply raw_ok_enumerate in Hok as [Hids _].
  rewrite <- (Permutation_map get_article_id_from_filepath
                (sorted_Permutation path_leb _)).
  rewrite Hids. apply count_from_NoDup.
Qed.

(** The constructor, step by step: a new dict, validation, and the scan
    into the dict. *)
Lemma new_CorpusManager_unfold (path : string) (heap : gmap nat (list (Z * Article))) :
  new_CorpusManager path heap
  = let self := {| object_path := path; storage_address := fresh (dom heap) |} in
    match fst (_validate_dataset get_article_id_from_filepath fs
                 {| path_to_raw_txt_data := path; _storage := ∅ |}) with
    | Returned _ =>
        (Returned self,
         <[fresh (dom heap) := map item_of (glob_raw fs path)]> heap)
    | Raised e => (Raised e, <[fresh (dom heap) := []]> heap)
    end.
Proof.
  unfold new_CorpusManager, bind, validate_dataset_in_place. simpl.
  rewrite (validation_by_path _ {| path_to_raw_txt_data := path; _storage := ∅ |})
    by done.
  destruct (fst (_validate_dataset _ _ _)) as [[]|e] eqn:Hvalid; [|done].
  rewrite scan_in_place_unfold. simpl. f_equal.
  rewrite alter_insert_eq. f_equal.
  apply validated_ids_NoDup in Hvalid. simpl in Hvalid.
  by rewrite register_all_in_place_new.
Qed.

End CorpusManagerObjectsProperties.




(** Whether the constructor returns, what it raises, and the record it
    stores under each key do not depend on the order in which the directory
    lists its entries; the order of the dict does: its keys stand in the
    order in which the directory lists the raw files. *)
Theorem dict_order_is_listing_order
    (get_article_id_from_filepath : DirEntry -> Z) (fs fs' : FileSystem)
    (path : string) (entries entries' : list DirEntry)
    (heap : gmap nat (list (Z * Article))) :
  fs path = Directory entries ->
  fs' path = Directory entries' ->
  entries ≡ₚ entries' ->
  NoDup (map entry_name entries) ->
  match new_CorpusManager get_article_id_from_filepath fs path heap,
        new_CorpusManager get_article_id_from_filepath fs' path heap with
  | (Returned self, listed), (Returned self', listed') =>
      self = self'
      /\ mapping_of (dict_at listed (storage_address self))
         = mapping_of (dict_at listed' (storage_address self))
      /\ dict_keys (dict_at listed (storage_address self))
         = map get_article_id_from_filepath (glob_raw fs path)
      /\ dict_keys (dict_at listed' (storage_address self))
         = map get_article_id_from_filepath (glob_raw fs' path)
  | (Raised e, listed), (Raised e', listed') => e = e' /\ listed = listed'
  | _, _ => False
  end.
Proof.
  intros Hfs Hfs' Hperm Hnames.
  assert (glob_raw fs path ≡ₚ glob_raw fs' path) as Hraw.
  { unfold glob_raw, iterdir. rewrite Hfs, Hfs'. by apply filter_Permutation. }
  assert (forall file, file ∈ glob_raw fs path -> file ∈ entries) as Hsub.
  { intros file. unfold glob_raw, iterdir. rewrite Hfs, list_elem_of_filter. tauto. }
  assert (sorted path_leb (glob_raw fs path) = sorted path_leb (glob_raw fs' path))
    as Hsorted.
  { apply (StronglySorted_unique_strong (fun a b => path_leb a b = true)).
    - intros x1 x2 Hx1 Hx2 H12 H21.
      rewrite (sorted_Permutation path_leb) in Hx1, Hx2. rewrite <- Hraw in Hx2.
      apply (entries_by_name entries); auto.
      by apply String.leb_antisym.
    - apply sorted_paths_StronglySorted.
    - apply sorted_paths_StronglySorted.
    - by rewrite !(sorted_Permutation path_leb). }
  assert (fst (_validate_dataset get_article_id_from_filepath fs
                 {| path_to_raw_txt_data := path; _storage := ∅ |})
          = fst (_validate_dataset get_article_id_from_filepath fs'
                   {| path_to_raw_txt_data := path; _storage := ∅ |})) as Hsame.
  { rewrite (validate_dataset_unfold _ fs), (validate_dataset_unfold _ fs'). simpl.
    rewrite Hfs, Hfs', <- Hsorted.
    destruct entries as [|e entries]; destruct entries' as [|e' entries'].
    - done.
    - by apply Permutation_nil_cons in Hperm.
    - symmetry in Hperm. by apply Permutation_nil_cons in Hperm.
    - by destruct (forallb _ _). }
  rewrite !new_CorpusManager_unfold. cbv zeta. rewrite <- Hsame.
  destruct (fst (_validate_dataset get_article_id_from_filepath fs _))
    as [[]|e] eqn:Hvalid; [|done].
  apply validated_ids_NoDup in Hvalid. simpl in Hvalid.
  unfold dict_at, dict_keys. simpl. rewrite !lookup_insert_eq. simpl.
  split; [done|]. split.
  - apply list_to_map_proper.
    + by rewrite <- list_fmap_compose.
    + by apply Permutation_map.
  - by rewrite <- !list_fmap_compose.
Qed.

Lemma dict_order_is_listing_order_witness :
  match new_CorpusManager embedded_id (assets_with three_articles) "assets" ∅,
        new_CorpusManager embedded_id (assets_with (rev three_articles)) "assets" ∅ with
  | (Returned self, listed), (Returned self', listed') =>
      self = self'
      /\ mapping_of (dict_at listed (storage_address self))
         = mapping_of (dict_at listed' (storage_address self))
      /\ dict_keys (dict_at listed (storage_address self))
         = map embedded_id (glob_raw (assets_with three_articles) "assets")
      /\ dict_keys (dict_at listed' (storage_address self))
         = map embedded_id (glob_raw (assets_with (rev three_articles)) "assets")
  | (Raised e, listed), (Raised e', listed') => e = e' /\ listed = listed'
  | _, _ => False
  end.
Proof.
  apply (dict_order_is_listing_order embedded_id
           (assets_with three_articles) (assets_with (rev three_articles)) "assets"
           three_articles (rev three_articles)).
  - reflexivity.
  - reflexivity.
  - apply Permutation_rev.
  - vm_compute.
    repeat (constructor;
            [by (rewrite ?elem_of_cons, ?elem_of_nil; intuition discriminate)|]).
    constructor.
Defined.

(** ** scrapper.py: the configuration *)

Module ScrapperProperties.
Import Scrapper.

(** [s.startswith(p)], by the characters. *)
Lemma string_prefix_cons (a b : ascii) (p s : string) :
  String.prefix (String a p) (String b s) = Ascii.eqb b a && String.prefix p s.
Proof.
  simpl. destruct (ascii_dec a b) as [->|Hne].
  - by rewrite Ascii.eqb_refl.
  - destruct (Ascii.eqb_spec b a); [congruence|done].
Qed.

Lemma prefix_remove_prefix (p q s : string) :
  String.prefix (p ++ q) s
  = match remove_prefix p s with
    | Some rest => String.prefix q rest
    | None => false
    end.
Proof.
  revert s; induction p as [|a p IH]; intros s.
  - done.
  - destruct s as [|b s]; [done|].
    change (String a p ++ q)%string with (String a (p ++ q)).
    rewrite string_prefix_cons. simpl. destruct (Ascii.eqb b a); [apply IH|done].
Qed.

(** A literal matches when the string starts with it, and hands over the
    rest. *)
Lemma match_at_literal (p s : string) (k : string -> bool) :
  match_at (literal p) s k
  = match remove_prefix p s with
    | Some rest => k rest
    | None => false
    end.
Proof.
  revert s; induction p as [|a p IH]; intros s; simpl.
  - done.
  - destruct s as [|b s]; [done|]. destruct (Ascii.eqb b a); [apply IH|done].
Qed.

Lemma seed_pattern_tests_prefix (s : string) :
  re_match seed_url_pattern s
  = String.prefix "http://" s || String.prefix "https://" s.
Proof.
  unfold re_match, seed_url_pattern. cbn [match_at].
  rewrite match_at_literal.
  rewrite (prefix_remove_prefix "http" "://"), (prefix_remove_prefix "http" "s://").
  destruct (remove_prefix "http" s) as [rest|]; [|done].
  assert (forall (k : string -> bool) r,
            match_at (literal "://") r (fun s' => k s' || true)
            = String.prefix "://" r) as Hrest.
  { intros k r. rewrite match_at_literal.
    change "://" with ("://" ++ "")%string at 2.
    rewrite prefix_remove_prefix.
    destruct (remove_prefix "://" r) as [r'|]; [|done].
    rewrite orb_true_r. by destruct r'. }
  rewrite Hrest, orb_comm. f_equal.
  destruct rest as [|c rest]; [done|].
  rewrite string_prefix_cons. destruct (Ascii.eqb c "s"); [apply Hrest|done].
Qed.

(** The seed pattern asks for [http://] or [https://] at the start, and for
    nothing more: the group [(www.)?] never turns a url down. *)
Theorem seed_url_pattern_accepts (s : string) :
  re_match seed_url_pattern s
  = String.prefix "http://" s || String.prefix "https://" s.
Proof. by apply seed_pattern_tests_prefix. Qed.

Lemma check_seed_urls_ok (urls : list JSON) :
  check_seed_urls urls = Ok tt
  <-> Forall (fun u => exists s, u = JStr s /\ re_match seed_url_pattern s = true) urls.
Proof.
  induction urls as [|u urls IH]; simpl.
  - split; [constructor|done].
  - rewrite Forall_cons.
    destruct u as [| | | |s| |];
      try (split; [done|by intros [(? & ? & _) _]]).
    destruct (re_match seed_url_pattern s) eqn:Hs; simpl.
    + rewrite IH. split; [by eauto|by intros [_ ?]].
    + split; [done|]. intros [(s' & [= <-] & Hs') _]. congruence.
Qed.

Ltac bool_to_Prop :=
  repeat match goal with
    | H : _ || _ = true |- _ => apply orb_true_iff in H
    | H : _ || _ = false |- _ => apply orb_false_iff in H as [? ?]
    | H : _ && _ = true |- _ => apply andb_true_iff in H as [? ?]
    | H : _ && _ = false |- _ => apply andb_false_iff in H
    | H : negb _ = true |- _ => apply negb_true_iff in H
    | H : negb _ = false |- _ => apply negb_false_iff in H
    | H : (_ <=? _) = true |- _ => apply Z.leb_le in H
    | H : (_ <=? _) = false |- _ => apply Z.leb_gt in H
    | H : (_ <? _) = true |- _ => apply Z.ltb_lt in H
    | H : (_ <? _) = false |- _ => apply Z.ltb_ge in H
    end.

Lemma validation_passes_iff (cfg : ConfigDTO) :
  _validate_config_content cfg = Ok tt
  <-> (exists urls,
         seed_urls cfg = JList urls
         /\ Forall (fun u => exists s,
                      u = JStr s
                      /\ (String.prefix "http://" s = true
                          \/ String.prefix "https://" s = true)) urls)
      /\ is_int (total_articles cfg) = true
      /\ 1 <= int_value (total_articles cfg) <= 150
      /\ is_dict (headers cfg) = true
      /\ is_str (encoding cfg) = true
      /\ is_int (timeout cfg) = true
      /\ 0 < int_value (timeout cfg) < 60
      /\ is_bool (should_verify_certificate cfg) = true
      /\ is_bool (headless_mode cfg) = true.
Proof.
  unfold _validate_config_content.
  destruct (seed_urls cfg) as [| | | | |urls|];
    try (split; [done|by intros [(? & ? & _) _]]).
  assert (check_seed_urls urls = Ok tt
          <-> Forall (fun u => exists s,
                        u = JStr s
                        /\ (String.prefix "http://" s = true
                            \/ String.prefix "https://" s = true)) urls) as Hseeds.
  { rewrite check_seed_urls_ok. apply Forall_proper; [|done]. intros u.
    split; intros (s & -> & Hs); exists s; (split; [done|]);
      rewrite seed_pattern_tests_prefix in *; by apply orb_true_iff. }
  destruct (check_seed_urls urls) as [[]|e]; simpl.
  - repeat match goal with
      | |- context [if ?b then _ else _] => destruct b eqn:?
      end;
      (split; [try done; intros _|try done; intros (_ & ? & ? & ? & ? & ? & ? & ? & ?)]);
      try (exfalso;
           repeat (bool_to_Prop;
                   try match goal with H : _ \/ _ |- _ => destruct H end);
           congruence || lia).
    bool_to_Prop. split; [exists urls; split; [done|by apply Hseeds]|].
    repeat split; (done || lia).
  - split; [done|]. intros [(urls' & [= <-] & Hall) _].
    by apply Hseeds in Hall.
Qed.

(** The configurations [_validate_config_content] lets through: the seed
    urls are a list of strings that start with [http://] or [https://], the
    number of articles is an int from 1 to 150, the headers are a dict, the
    encoding is a string, the timeout is an int from 1 to 59, and the two
    switches are bools. *)
Theorem validate_config_accepts_iff (cfg : ConfigDTO) :
  _validate_config_content cfg = Ok tt
  <-> (exists urls,
         seed_urls cfg = JList urls
         /\ Forall (fun u => exists s,
                      u = JStr s
                      /\ (String.prefix "http://" s = true
                          \/ String.prefix "https://" s = true)) urls)
      /\ is_int (total_articles cfg) = true
      /\ 1 <= int_value (total_articles cfg) <= 150
      /\ is_dict (headers cfg) = true
      /\ is_str (encoding cfg) = true
      /\ is_int (timeout cfg) = true
      /\ 0 < int_value (timeout cfg) < 60
      /\ is_bool (should_verify_certificate cfg) = true
      /\ is_bool (headless_mode cfg) = true.
Proof. by apply validation_passes_iff. Qed.

(** [NumberOfArticlesOutOfRangeError] is raised for an int above 150 and for
    nothing else: a number of articles of 0 or below never gets that far. *)
Theorem out_of_range_iff_above_150 (cfg : ConfigDTO) :
  _validate_config_content cfg = Err NumberOfArticlesOutOfRangeError
  <-> (exists urls,
         seed_urls cfg = JList urls
         /\ Forall (fun u => exists s,
                      u = JStr s
                      /\ (String.prefix "http://" s = true
                          \/ String.prefix "https://" s = true)) urls)
      /\ is_int (total_articles cfg) = true
      /\ 150 < int_value (total_articles cfg).
Proof.
  unfold _validate_config_content.
  destruct (seed_urls cfg) as [| | | | |urls|];
    try (split; [done|by intros [(? & ? & _) _]]).
  assert (check_seed_urls urls = Ok tt
          <-> Forall (fun u => exists s,
                        u = JStr s
                        /\ (String.prefix "http://" s = true
                            \/ String.prefix "https://" s = true)) urls) as Hseeds.
  { rewrite check_seed_urls_ok. apply Forall_proper; [|done]. intros u.
    split; intros (s & -> & Hs); exists s; (split; [done|]);
      rewrite seed_pattern_tests_prefix in *; by apply orb_true_iff. }
  destruct (check_seed_urls urls) as [[]|e] eqn:Hcheck; simpl.
  - destruct (negb (is_int (total_articles cfg))
              || (int_value (total_articles cfg) <=? 0)) eqn:Hint;
      [|destruct (negb ((1 <=? int_value (total_articles cfg))
                        && (int_value (total_articles cfg) <=? 150))) eqn:Hrange].
    + split; [done|]. intros (_ & ? & ?). exfalso. bool_to_Prop.
      destruct Hint; bool_to_Prop; congruence || lia.
    + split; [intros _|done]. bool_to_Prop.
      split; [exists urls; split; [done|by apply Hseeds]|].
      split; [done|]. destruct Hrange; bool_to_Prop; lia.
    + split.
      * repeat match goal with
          | |- context [if ?b then _ else _] => destruct b
          end; done.
      * intros (_ & ? & ?). exfalso. bool_to_Prop. lia.
  - split.
    + intros [= ->]. clear Hseeds. exfalso. revert Hcheck.
      induction urls as [|[| | | |s| |] urls IH]; simpl; try done.
      destruct (negb _); [done|apply IH].
    + intros [(urls' & [= <-] & Hall) _]. by apply Hseeds in Hall.
Qed.

(** [True] passes for the number 1: a configuration that is let through is
    still let through with [true] as its number of articles and as its
    timeout. *)
Theorem true_counts_as_one (cfg : ConfigDTO) :
  _validate_config_content cfg = Ok tt ->
  _validate_config_content
    {| seed_urls := seed_urls cfg; headers := headers cfg;
       total_articles := JBool true; encoding := encoding cfg;
       timeout := JBool true;
       should_verify_certificate := should_verify_certificate cfg;
       headless_mode := headless_mode cfg |} = Ok tt.
Proof.
  rewrite !validation_passes_iff. simpl.
  intros (? & _ & _ & ? & ? & _ & _ & ? & ?). repeat split; (done || lia).
Qed.

Lemma true_counts_as_one_witness :
  _validate_config_content
    {| seed_urls := JList [JStr "https://volga.news/"]; headers := JDict [];
       total_articles := JBool true; encoding := JStr "utf-8";
       timeout := JBool true; should_verify_certificate := JBool true;
       headless_mode := JBool false |} = Ok tt.
Proof.
  apply (true_counts_as_one
           {| seed_urls := JList [JStr "https://volga.news/"]; headers := JDict [];
              total_articles := JInt 3; encoding := JStr "utf-8";
              timeout := JInt 5; should_verify_certificate := JBool true;
              headless_mode := JBool false |}).
  reflexivity.
Defined.

Lemma built_config_facts
    (files : string -> ConfigFile) (path : string) (self : Config) :
  Config__init__ files path = Ok self ->
  (exists content,
     files path = Parsed content
     /\ subscript content "seed_urls" = Ok (get_seed_urls self)
     /\ subscript content "headers" = Ok (get_headers self)
     /\ subscript content "total_articles_to_find_and_parse"
        = Ok (get_num_articles self)
     /\ subscript content "encoding" = Ok (get_encoding self)
     /\ subscript content "timeout" = Ok (get_timeout self)
     /\ subscript content "should_verify_certificate"
        = Ok (get_verify_certificate self)
     /\ subscript content "headless_mode" = Ok (get_headless_mode self))
  /\ (exists urls,
        get_seed_urls self = JList urls
        /\ Forall (fun u => exists s,
                     u = JStr s
                     /\ (String.prefix "http://" s = true
                         \/ String.prefix "https://" s = true)) urls)
  /\ is_int (get_num_articles self) = true
  /\ 1 <= int_value (get_num_articles self) <= 150
  /\ is_dict (get_headers self) = true
  /\ is_str (get_encoding self) = true
  /\ is_int (get_timeout self) = true
  /\ 0 < int_value (get_timeout self) < 60
  /\ is_bool (get_verify_certificate self) = true
  /\ is_bool (get_headless_mode self) = true.
Proof.
  unfold Config__init__, _extract_config_content. intros Hinit.
  destruct (files path) as [| |content]; try done.
  unfold bind_outcome in Hinit.
  repeat match type of Hinit with
    | context [match subscript ?c ?k with _ => _ end] =>
        destruct (subscript c k) eqn:?; [|done]
    end.
  match type of Hinit with
  | context [_validate_config_content ?dto] =>
      destruct (_validate_config_content dto) as [[]|] eqn:Hvalid; [|done]
  end.
  injection Hinit as <-. apply validation_passes_iff in Hvalid.
  split; [|exact Hvalid]. exists content. by repeat split.
Qed.

(** A configuration that was built hands out what the file holds under each
    key, and what it hands out is sound: a list of seed urls that start with
    [http://] or [https://], a number of articles from 1 to 150, a timeout
    from 1 to 59. *)
Theorem constructed_config_is_sound
    (files : string -> ConfigFile) (path : string) (self : Config) :
  Config__init__ files path = Ok self ->
  (exists content,
     files path = Parsed content
     /\ subscript content "seed_urls" = Ok (get_seed_urls self)
     /\ subscript content "headers" = Ok (get_headers self)
     /\ subscript content "total_articles_to_find_and_parse"
        = Ok (get_num_articles self)
     /\ subscript content "encoding" = Ok (get_encoding self)
     /\ subscript content "timeout" = Ok (get_timeout self)
     /\ subscript content "should_verify_certificate"
        = Ok (get_verify_certificate self)
     /\ subscript content "headless_mode" = Ok (get_headless_mode self))
  /\ (exists urls,
        get_seed_urls self = JList urls
        /\ Forall (fun u => exists s,
                     u = JStr s
                     /\ (String.prefix "http://" s = true
                         \/ String.prefix "https://" s = true)) urls)
  /\ is_int (get_num_articles self) = true
  /\ 1 <= int_value (get_num_articles self) <= 150
  /\ is_dict (get_headers self) = true
  /\ is_str (get_encoding self) = true
  /\ is_int (get_timeout self) = true
  /\ 0 < int_value (get_timeout self) < 60
  /\ is_bool (get_verify_certificate self) = true
  /\ is_bool (get_headless_mode self) = true.
Proof. by apply built_config_facts. Qed.

Lemma constructed_config_is_sound_witness :
  1 <= int_value (get_num_articles (config_of sample_config)) <= 150.
Proof.
  refine (proj1 (proj2 (proj2 (proj2
            (constructed_config_is_sound (one_file sample_config)
               "scrapper_config.json" (config_of sample_config) _))))).
  reflexivity.
Defined.

(** A file that lacks one of the seven settings: [Config] raises [KeyError]
    for a setting the file lacks, and none of the errors of validation. *)
Theorem missing_setting_is_a_KeyError
    (files : string -> ConfigFile) (path : string)
    (members : list (string * JSON)) (key : string) :
  files path = Parsed (JDict members) ->
  key ∈ ["seed_urls"; "headers"; "total_articles_to_find_and_parse"; "encoding";
         "timeout"; "should_verify_certificate"; "headless_mode"] ->
  lookup_member key members = None ->
  exists missing,
    lookup_member missing members = None
    /\ Config__init__ files path = Err (KeyError missing).
Proof.
  intros Hfile Hkey Hnone. unfold Config__init__, _extract_config_content.
  rewrite Hfile. unfold subscript, bind_outcome.
  repeat match goal with
    | |- context [match lookup_member ?k members with _ => _ end] =>
        destruct (lookup_member k members) eqn:?; [|by eauto]
    end.
  exfalso. rewrite !elem_of_cons, elem_of_nil in Hkey.
  intuition (subst; congruence).
Qed.

Lemma missing_setting_is_a_KeyError_witness :
  exists missing,
    lookup_member missing
      [("seed_urls", JList [JStr "https://volga.news/"]); ("headers", JDict []);
       ("total_articles_to_find_and_parse", JInt 3); ("encoding", JStr "utf-8");
       ("should_verify_certificate", JBool true); ("headless_mode", JBool false)]
    = None
    /\ Config__init__ (one_file config_without_timeout) "scrapper_config.json"
       = Err (KeyError missing).
Proof.
  apply (missing_setting_is_a_KeyError (one_file config_without_timeout)
           "scrapper_config.json" _ "timeout").
  - reflexivity.
  - do 4 apply list_elem_of_further. apply list_elem_of_here.
  - reflexivity.
Defined.

(** ** scrapper.py: the crawler *)

Lemma prefix_append (p t : string) : String.prefix p (p ++ t) = true.
Proof.
  induction p as [|a p IH]; simpl.
  - by destruct t.
  - by destruct (ascii_dec a a).
Qed.

Lemma extract_url_prefix (self : Crawler) (article_bs : Soup) (u : string) :
  _extract_url self article_bs = Ok u -> String.prefix (url_pattern self) u = true.
Proof.
  unfold _extract_url, bind_outcome.
  destruct (last_href _ _) as [[tail|]|]; try done.
  intros [= <-]. apply prefix_append.
Qed.

Section Crawl.

Variable web : nat -> JSON -> Config -> Outcome Response.

Local Abbreviation visit_seed := (visit_seed web).
Local Abbreviation find_articles := (find_articles web).

Lemma grown_by_nil (self : Crawler) : grown_by self self [].
Proof. unfold grown_by. by rewrite app_nil_r. Qed.

Lemma grown_by_trans (c1 c2 c3 : Crawler) (new1 new2 : list string) :
  grown_by c1 c2 new1 -> grown_by c2 c3 new2 -> grown_by c1 c3 (new1 ++ new2).
Proof.
  intros (Hc1 & Hp1 & Hu1 & Hf1) (Hc2 & Hp2 & Hu2 & Hf2). unfold grown_by.
  rewrite Hc2, Hp2, Hu2, Hu1, Hp1 in *.
  repeat split; [done..|by rewrite app_assoc|by apply Forall_app].
Qed.

Lemma visit_seed_grows (seed : JSON) (self : Crawler) (clock : nat) :
  exists new,
    grown_by self (fst (snd (visit_seed seed (self, clock)))) new
    /\ (length new <= 1)%nat
    /\ snd (snd (visit_seed seed (self, clock))) = S clock
    /\ (forall e, fst (visit_seed seed (self, clock)) = Err e -> new = []).
Proof.
  unfold Scrapper.visit_seed, make_request.
  destruct (web clock seed (crawler_config self)) as [response|e]; simpl.
  - destruct (ok response); simpl.
    + destruct (_extract_url self (soup response)) as [u|e] eqn:Hu; simpl.
      * exists [u]. repeat split; simpl; try done.
        constructor; [by eapply extract_url_prefix|done].
      * exists []. repeat split; simpl; try done; try lia. by rewrite app_nil_r.
    + exists []. repeat split; simpl; try done; try lia. by rewrite app_nil_r.
  - exists []. repeat split; simpl; try done; try lia. by rewrite app_nil_r.
Qed.

(** One pass over the seeds. *)
Lemma pass_grows (seeds : list JSON) (self : Crawler) (clock : nat) :
  exists new,
    grown_by self (fst (snd (run_for_each seeds visit_seed (self, clock)))) new
    /\ (length new <= length seeds)%nat.
Proof.
  revert self clock; induction seeds as [|seed seeds IH]; intros self clock; simpl.
  - exists []. split; [apply grown_by_nil|done].
  - unfold run_bind.
    destruct (visit_seed_grows seed self clock) as (new1 & Hg1 & Hl1 & Hclock & Herr).
    destruct (visit_seed seed (self, clock)) as [[[]|e] [self1 clock1]]; simpl in *.
    + destruct (IH self1 clock1) as (new2 & Hg2 & Hl2).
      exists (new1 ++ new2)%list. split; [by eapply grown_by_trans|].
      rewrite length_app. lia.
    + exists new1. split; [done|lia].
Qed.

(** Whatever way [find_articles] ends, the crawler has kept its
    configuration and its urls and gained urls that start with the
    pattern. *)
Theorem find_articles_adds_site_urls
    (fuel : nat) (self self' : Crawler) (clock clock' : nat) (result : Outcome unit) :
  find_articles fuel (self, clock) = Some (result, (self', clock')) ->
  exists new,
    crawler_config self' = crawler_config self
    /\ urls self' = (urls self ++ new)%list
    /\ Forall (fun u => String.prefix (url_pattern self) u = true) new.
Proof.
  intros Hrun.
  assert (exists new, grown_by self self' new) as (new & ? & ? & ? & ?);
    [|by exists new].
  revert self clock Hrun; induction fuel as [|fuel IH]; intros self clock; simpl.
  - done.
  - destruct (int_lt _ _) as [[|]|e]; simpl.
    + destruct (iterate _) as [seeds|e]; simpl.
      * destruct (pass_grows seeds self clock) as (new1 & Hg1 & _).
        destruct (run_for_each seeds visit_seed (self, clock))
          as [[[]|e] [self1 clock1]]; simpl in *.
        -- intros Hrun. apply IH in Hrun as (new2 & Hg2).
           exists (new1 ++ new2)%list. by eapply grown_by_trans.
        -- intros [= _ <- _]. by exists new1.
      * intros [= _ <- _]. exists []. apply grown_by_nil.
    + intros [= _ <- _]. exists []. apply grown_by_nil.
    + intros [= _ <- _]. exists []. apply grown_by_nil.
Qed.

(** When [find_articles] returns, the crawler has as many urls as the
    configuration asks for, and fewer than that number plus the number of
    seeds: the pass over the seeds that reaches the number is run to its
    end. With enough urls from the start, nothing is requested. *)
Theorem find_articles_bounds
    (fuel : nat) (self self' : Crawler) (clock clock' : nat) (seeds : list JSON) :
  is_int (get_num_articles (crawler_config self)) = true ->
  iterate (get_search_urls self) = Ok seeds ->
  find_articles fuel (self, clock) = Some (Ok tt, (self', clock')) ->
  int_value (get_num_articles (crawler_config self)) <= Z.of_nat (length (urls self'))
  /\ (Z.of_nat (length (urls self))
        < int_value (get_num_articles (crawler_config self)) ->
      Z.of_nat (length (urls self'))
        < int_value (get_num_articles (crawler_config self))
          + Z.of_nat (length seeds))
  /\ (int_value (get_num_articles (crawler_config self))
        <= Z.of_nat (length (urls self)) ->
      self' = self /\ clock' = clock).
Proof.
  intros Hint Hseeds.
  revert self clock Hint Hseeds; induction fuel as [|fuel IH];
    intros self clock Hint Hseeds; simpl; [done|].
  assert (int_lt (Z.of_nat (length (urls self)))
                 (get_num_articles (crawler_config self))
          = Ok (Z.of_nat (length (urls self))
                <? int_value (get_num_articles (crawler_config self)))) as ->.
  { by destruct (get_num_articles (crawler_config self)). }
  destruct (Z.ltb_spec (Z.of_nat (length (urls self)))
              (int_value (get_num_articles (crawler_config self)))) as [Hlt|Hge].
  - rewrite Hseeds.
    destruct (pass_grows seeds self clock) as (new1 & (Hc & Hp & Hu & _) & Hlen).
    destruct (run_for_each seeds visit_seed (self, clock))
      as [[[]|e] [self1 clock1]]; simpl in *; [|done].
    intros Hrun.
    assert (iterate (get_search_urls self1) = Ok seeds) as Hseeds1.
    { unfold get_search_urls in *. by rewrite Hc. }
    apply IH in Hrun; [|by rewrite Hc|done].
    rewrite Hc, Hu, length_app in Hrun. destruct Hrun as (Hmin & Hmax & Hstay).
    split; [done|]. split; [|lia]. intros _.
    destruct (Z.lt_ge_cases (Z.of_nat (length (urls self) + length new1))
                (int_value (get_num_articles (crawler_config self)))) as [?|Hdone].
    + by apply Hmax.
    + destruct (Hstay Hdone) as [-> _]. rewrite Hu, length_app. lia.
  - intros [= <- <-]. split; [done|]. split; [lia|done].
Qed.

(** A pass over seeds that are all answered with an error page leaves the
    crawler as it was. *)
Lemma idle_pass (cfg : Config) (seeds : list JSON) (self : Crawler) (clock : nat) :
  crawler_config self = cfg ->
  (forall clock' seed, seed ∈ seeds ->
     exists response, web clock' seed cfg = Ok response /\ ok response = false) ->
  run_for_each seeds visit_seed (self, clock)
  = (Ok tt, (self, (clock + length seeds)%nat)).
Proof.
  intros <-. revert clock; induction seeds as [|seed seeds IH]; intros clock Hweb.
  - simpl. unfold run_ret. by rewrite Nat.add_0_r.
  - simpl. unfold run_bind, Scrapper.visit_seed at 1, make_request.
    destruct (Hweb clock seed) as (response & -> & Hok); [apply list_elem_of_here|].
    rewrite Hok. simpl. rewrite IH.
    + do 2 f_equal. lia.
    + intros clock' seed' Hin. apply Hweb. by apply list_elem_of_further.
Qed.

Lemma idle_crawler_never_stops (cfg : Config) (seeds : list JSON) :
  is_int (get_num_articles cfg) = true ->
  1 <= int_value (get_num_articles cfg) ->
  get_seed_urls cfg = JList seeds ->
  (forall clock seed, seed ∈ seeds ->
     exists response, web clock seed cfg = Ok response /\ ok response = false) ->
  forall fuel clock, find_articles fuel (Crawler__init__ cfg, clock) = None.
Proof.
  intros Hint Hone Hseeds Hweb fuel.
  induction fuel as [|fuel IH]; intros clock; simpl; [done|].
  assert (int_lt (Z.of_nat 0) (get_num_articles cfg) = Ok true) as ->.
  { destruct (get_num_articles cfg) as [|[|]|z| | | |]; try done; simpl in *;
      try lia. f_equal. apply Z.ltb_lt. lia. }
  unfold get_search_urls. simpl crawler_config. rewrite Hseeds. simpl iterate.
  cbv iota. rewrite (idle_pass cfg) by done. apply IH.
Qed.

(** A configuration may hold an empty list of seed urls: [Config] builds
    it, and [find_articles] then runs for ever, without a request. *)
Theorem empty_seed_list_never_stops
    (files : string -> ConfigFile) (path : string) (cfg : Config) :
  Config__init__ files path = Ok cfg ->
  get_seed_urls cfg = JList [] ->
  forall fuel clock, find_articles fuel (Crawler__init__ cfg, clock) = None.
Proof.
  intros Hinit Hseeds.
  apply built_config_facts in Hinit as (_ & _ & Hint & Hrange & _).
  apply (idle_crawler_never_stops cfg []); [done|lia|done|].
  intros ? ? Hin. by apply elem_of_nil in Hin.
Qed.

(** When every request for a seed is answered with an error page, the
    crawler of a configuration that was built runs for ever. *)
Theorem unanswered_seeds_never_stop
    (files : string -> ConfigFile) (path : string) (cfg : Config) :
  Config__init__ files path = Ok cfg ->
  (forall clock seed,
     exists response, web clock seed cfg = Ok response /\ ok response = false) ->
  forall fuel clock, find_articles fuel (Crawler__init__ cfg, clock) = None.
Proof.
  intros Hinit Hweb.
  apply built_config_facts in Hinit
    as (_ & (seeds & Hseeds & _) & Hint & Hrange & _).
  apply (idle_crawler_never_stops cfg seeds); [done|lia|done|]. auto.
Qed.

(** The link of a page whose title blocks all have an anchor with a link. *)
Lemma last_href_linked (divs : list TitleDiv) (url : string) :
  Forall (fun div => exists href, anchor_href div = Some (Some href)) divs ->
  exists u, last_href divs (Some url) = Ok (Some u).
Proof.
  revert url; induction divs as [|div divs IH]; intros url Hall; simpl.
  - by eauto.
  - apply Forall_cons in Hall as [(href & ->) Hall]. by apply IH.
Qed.

(** A pass over seeds that are all answered with a page of links adds a url
    for each seed. *)
Lemma full_pass (cfg : Config) (seeds : list JSON) (self : Crawler) (clock : nat) :
  crawler_config self = cfg ->
  (forall clock' seed,
     exists response,
       web clock' seed cfg = Ok response /\ ok response = true
       /\ Forall (fun div => exists href, anchor_href div = Some (Some href))
                 (title_divs (soup response))) ->
  exists self' clock',
    run_for_each seeds visit_seed (self, clock) = (Ok tt, (self', clock'))
    /\ crawler_config self' = cfg
    /\ length (urls self') = (length (urls self) + length seeds)%nat.
Proof.
  intros Hcfg Hweb. revert self clock Hcfg.
  induction seeds as [|seed seeds IH]; intros self clock Hcfg; simpl.
  - exists self, clock. unfold run_ret. repeat split; [done|lia].
  - unfold run_bind, Scrapper.visit_seed at 1, make_request. rewrite Hcfg.
    destruct (Hweb clock seed) as (response & -> & Hok & Hlinks).
    rewrite Hok. simpl. unfold _extract_url, bind_outcome.
    destruct (last_href_linked _ "" Hlinks) as (u & ->).
    match goal with
    | |- context [run_for_each seeds _ (?c, ?k)] =>
        destruct (IH c k) as (self' & clock' & -> & Hcfg' & Hlen); [done|]
    end.
    exists self', clock'. split; [done|]. split; [done|].
    rewrite Hlen. simpl. rewrite length_app. simpl. lia.
Qed.

(** When every request is answered with a page whose title blocks all have
    a link, and there is a seed, [find_articles] returns: as many rounds as
    the number of articles, and one more test, are enough. *)
Theorem answered_seeds_stop
    (files : string -> ConfigFile) (path : string) (cfg : Config)
    (seed : JSON) (seeds : list JSON) (clock : nat) :
  Config__init__ files path = Ok cfg ->
  get_seed_urls cfg = JList (seed :: seeds) ->
  (forall clock' url,
     exists response,
       web clock' url cfg = Ok response /\ ok response = true
       /\ Forall (fun div => exists href, anchor_href div = Some (Some href))
                 (title_divs (soup response))) ->
  exists self' clock',
    find_articles (S (Z.to_nat (int_value (get_num_articles cfg))))
      (Crawler__init__ cfg, clock)
    = Some (Ok tt, (self', clock')).
Proof.
  intros Hinit Hseeds Hweb.
  apply built_config_facts in Hinit as (_ & _ & Hint & Hrange & _).
  assert (forall k self clock0,
            crawler_config self = cfg ->
            int_value (get_num_articles cfg) - Z.of_nat (length (urls self))
              <= Z.of_nat k ->
            exists self' clock',
              find_articles (S k) (self, clock0) = Some (Ok tt, (self', clock')))
    as Hloop.
  { induction k as [|k IH]; intros self clock0 Hcfg Hleft; simpl;
      rewrite Hcfg;
      (assert (int_lt (Z.of_nat (length (urls self))) (get_num_articles cfg)
               = Ok (Z.of_nat (length (urls self))
                     <? int_value (get_num_articles cfg))) as ->;
       [by destruct (get_num_articles cfg)|]);
      destruct (Z.ltb_spec (Z.of_nat (length (urls self)))
                  (int_value (get_num_articles cfg))) as [Hlt|Hge];
      try (by eauto); try lia.
    unfold get_search_urls. rewrite Hcfg, Hseeds. simpl iterate. cbv iota.
    destruct (full_pass cfg (seed :: seeds) self clock0 Hcfg Hweb)
      as (self1 & clock1 & -> & Hcfg1 & Hlen).
    apply IH; [done|]. rewrite Hlen. simpl length. lia. }
  apply Hloop; [done|]. simpl. lia.
Qed.

Local Abbreviation one_pass_urls := (one_pass_urls web).

(** With a web that answers a request the same at any time, two crawlers of
    one configuration gain the same urls, at a seed and in a pass. *)
Lemma visits_agree (seed : JSON) (c1 c2 : Crawler) (k1 k2 : nat) :
  (forall t1 t2 url cfg, web t1 url cfg = web t2 url cfg) ->
  crawler_config c1 = crawler_config c2 ->
  url_pattern c1 = url_pattern c2 ->
  exists new,
    fst (visit_seed seed (c1, k1)) = fst (visit_seed seed (c2, k2))
    /\ fst (snd (visit_seed seed (c1, k1)))
       = {| crawler_config := crawler_config c1; urls := (urls c1 ++ new)%list;
            url_pattern := url_pattern c1 |}
    /\ fst (snd (visit_seed seed (c2, k2)))
       = {| crawler_config := crawler_config c2; urls := (urls c2 ++ new)%list;
            url_pattern := url_pattern c2 |}.
Proof.
  intros Hweb Hcfg Hpat. unfold Scrapper.visit_seed, make_request.
  rewrite (Hweb k2 k1 seed (crawler_config c2)), <- Hcfg.
  assert (forall c : Crawler,
            c = {| crawler_config := crawler_config c; urls := (urls c ++ [])%list;
                   url_pattern := url_pattern c |}) as Hsame.
  { intros [? ? ?]. simpl. by rewrite app_nil_r. }
  destruct (web k1 seed (crawler_config c1)) as [response|e]; simpl.
  - destruct (ok response); simpl.
    + unfold _extract_url, bind_outcome. rewrite <- Hpat.
      destruct (last_href _ _) as [[u|]|e]; simpl.
      * exists [(url_pattern c1 ++ u)%string]. by rewrite Hcfg.
      * exists []. repeat split; [apply Hsame|rewrite Hcfg, Hpat; apply Hsame].
      * exists []. repeat split; [apply Hsame|rewrite Hcfg, Hpat; apply Hsame].
    + exists []. repeat split; [apply Hsame|rewrite Hcfg; apply Hsame].
  - exists []. repeat split; [apply Hsame|rewrite Hcfg; apply Hsame].
Qed.

Lemma passes_agree (seeds : list JSON) (c1 c2 : Crawler) (k1 k2 : nat) :
  (forall t1 t2 url cfg, web t1 url cfg = web t2 url cfg) ->
  crawler_config c1 = crawler_config c2 ->
  url_pattern c1 = url_pattern c2 ->
  exists new,
    fst (run_for_each seeds visit_seed (c1, k1))
    = fst (run_for_each seeds visit_seed (c2, k2))
    /\ urls (fst (snd (run_for_each seeds visit_seed (c1, k1))))
       = (urls c1 ++ new)%list
    /\ urls (fst (snd (run_for_each seeds visit_seed (c2, k2))))
       = (urls c2 ++ new)%list.
Proof.
  intros Hweb. revert c1 c2 k1 k2.
  induction seeds as [|seed seeds IH]; intros c1 c2 k1 k2 Hcfg Hpat; simpl.
  - exists []. by rewrite !app_nil_r.
  - unfold run_bind.
    destruct (visits_agree seed c1 c2 k1 k2 Hweb Hcfg Hpat) as (new1 & Hr & H1 & H2).
    destruct (visit_seed seed (c1, k1)) as [r1 [c1' k1']].
    destruct (visit_seed seed (c2, k2)) as [r2 [c2' k2']].
    simpl in Hr, H1, H2. subst r2 c1' c2'.
    destruct r1 as [[]|e]; simpl.
    + match goal with
      | |- context [run_for_each seeds _ (?a, k1')] =>
          match goal with
          | |- context [run_for_each seeds _ (?b, k2')] =>
              destruct (IH a b k1' k2') as (new & Hr & Hu1 & Hu2); [done..|]
          end
      end.
      exists (new1 ++ new)%list. split; [exact Hr|]. split.
      * rewrite Hu1. simpl. by rewrite <- app_assoc.
      * rewrite Hu2. simpl. by rewrite <- app_assoc.
    + by exists new1.
Qed.

(** With a web that answers a request the same at any time, every pass
    brings the same urls again: when [find_articles] returns, the crawler
    has gained the urls of one pass, a number of times over. *)
Theorem find_articles_repeats_one_pass
    (fuel : nat) (self self' : Crawler) (clock clock' : nat) (seeds : list JSON) :
  (forall t1 t2 url cfg, web t1 url cfg = web t2 url cfg) ->
  iterate (get_search_urls self) = Ok seeds ->
  find_articles fuel (self, clock) = Some (Ok tt, (self', clock')) ->
  exists passes,
    urls self'
    = (urls self ++ concat (replicate passes (one_pass_urls seeds self)))%list.
Proof.
  intros Hweb.
  revert self clock; induction fuel as [|fuel IH]; intros self clock Hseeds;
    simpl; [done|].
  destruct (int_lt _ _) as [[|]|e]; simpl; try done.
  - rewrite Hseeds.
    destruct (passes_agree seeds self
                {| crawler_config := crawler_config self; urls := [];
                   url_pattern := url_pattern self |} clock 0 Hweb eq_refl eq_refl)
      as (new & _ & Hu & Hfresh).
    destruct (pass_grows seeds self clock) as (new0 & (Hc & Hp & _) & _).
    destruct (run_for_each seeds visit_seed (self, clock))
      as [[[]|e] [self1 clock1]]; simpl in *; [|done].
    intros Hrun. apply IH in Hrun as [passes Hurls].
    + exists (S passes). rewrite Hurls, Hu. simpl.
      unfold Scrapper.one_pass_urls. rewrite Hc, Hp, Hfresh. simpl.
      by rewrite <- app_assoc.
    + unfold get_search_urls in *. by rewrite Hc.
  - intros [= <- _]. exists O. simpl. by rewrite app_nil_r.
Qed.

End Crawl.

Lemma find_articles_adds_site_urls_witness :
  exists new,
    crawler_config sample_crawled = crawler_config sample_crawler
    /\ urls sample_crawled = (urls sample_crawler ++ new)%list
    /\ Forall (fun u => String.prefix (url_pattern sample_crawler) u = true) new.
Proof.
  apply (find_articles_adds_site_urls (same_page_web (page_linking_to "/news/1"))
           5 sample_crawler sample_crawled 0 4 (Ok tt)).
  by vm_compute.
Defined.

Lemma find_articles_bounds_witness :
  int_value (get_num_articles (crawler_config sample_crawler))
    <= Z.of_nat (length (urls sample_crawled))
  /\ (Z.of_nat (length (urls sample_crawler))
        < int_value (get_num_articles (crawler_config sample_crawler)) ->
      Z.of_nat (length (urls sample_crawled))
        < int_value (get_num_articles (crawler_config sample_crawler))
          + Z.of_nat (length [JStr "https://volga.news/";
                              JStr "https://volga.news/politics"]))
  /\ (int_value (get_num_articles (crawler_config sample_crawler))
        <= Z.of_nat (length (urls sample_crawler)) ->
      sample_crawled = sample_crawler /\ 4%nat = 0%nat).
Proof.
  apply (find_articles_bounds (same_page_web (page_linking_to "/news/1"))
           5 sample_crawler sample_crawled 0 4).
  - reflexivity.
  - reflexivity.
  - by vm_compute.
Defined.

Lemma empty_seed_list_never_stops_witness :
  find_articles failing_web 7
    (Crawler__init__ (config_of (config_with [] (JInt 3))), 0%nat) = None.
Proof.
  apply (empty_seed_list_never_stops failing_web
           (one_file (config_with [] (JInt 3))) "scrapper_config.json").
  - reflexivity.
  - reflexivity.
Defined.

Lemma unanswered_seeds_never_stop_witness :
  find_articles failing_web 7 (sample_crawler, 0%nat) = None.
Proof.
  apply (unanswered_seeds_never_stop failing_web
           (one_file sample_config) "scrapper_config.json").
  - reflexivity.
  - intros clock seed. eexists. split; reflexivity.
Defined.

Lemma answered_seeds_stop_witness :
  exists self' clock',
    find_articles (same_page_web (page_linking_to "/news/1"))
      (S (Z.to_nat (int_value (get_num_articles (config_of sample_config)))))
      (Crawler__init__ (config_of sample_config), 0%nat)
    = Some (Ok tt, (self', clock')).
Proof.
  apply (answered_seeds_stop (same_page_web (page_linking_to "/news/1"))
           (one_file sample_config) "scrapper_config.json" (config_of sample_config)
           (JStr "https://volga.news/") [JStr "https://volga.news/politics"] 0).
  - reflexivity.
  - reflexivity.
  - intros clock url. eexists. split; [reflexivity|]. split; [reflexivity|].
    repeat constructor. by eexists.
Defined.

Lemma find_articles_repeats_one_pass_witness :
  exists passes,
    urls sample_crawled
    = (urls sample_crawler
       ++ concat (replicate passes
                    (one_pass_urls (same_page_web (page_linking_to "/news/1"))
                       [JStr "https://volga.news/"; JStr "https://volga.news/politics"]
                       sample_crawler)))%list.
Proof.
  apply (find_articles_repeats_one_pass (same_page_web (page_linking_to "/news/1"))
           5 sample_crawler sample_crawled 0 4).
  - reflexivity.
  - reflexivity.
  - by vm_compute.
Defined.

(** ** scrapper.py: links and articles *)

Lemma last_href_app (divs : list TitleDiv) (div : TitleDiv) (url : option string) :
  Forall (fun d => anchor_href d <> None) divs ->
  last_href (divs ++ [div]) url
  = match anchor_href div with
    | Some href => Ok href
    | None => Err AttributeError
    end.
Proof.
  revert url; induction divs as [|d divs IH]; intros url Hall; simpl.
  - by destruct (anchor_href div).
  - apply Forall_cons in Hall as [Hd Hall].
    destruct (anchor_href d); [by apply IH|done].
Qed.

(** Of the title blocks of a page, the last one gives the url: the links of
    the blocks before it are dropped. *)
Theorem extract_url_takes_last_link
    (self : Crawler) (article_bs : Soup) (divs : list TitleDiv) (div : TitleDiv)
    (href : string) :
  title_divs article_bs = (divs ++ [div])%list ->
  Forall (fun d => anchor_href d <> None) divs ->
  anchor_href div = Some (Some href) ->
  _extract_url self article_bs = Ok (url_pattern self ++ href).
Proof.
  intros Hdivs Hall Hlast. unfold _extract_url, bind_outcome.
  by rewrite Hdivs, last_href_app, Hlast.
Qed.

Lemma extract_url_takes_last_link_witness :
  _extract_url (Crawler__init__ (config_of sample_config)) three_title_page
  = Ok "https://volga.news/news/3".
Proof.
  refine (extract_url_takes_last_link
            (Crawler__init__ (config_of sample_config)) three_title_page
            [{| anchor_href := Some (Some "/news/1") |}; {| anchor_href := Some None |}]
            {| anchor_href := Some (Some "/news/3") |} "/news/3" eq_refl _ eq_refl).
  repeat constructor; discriminate.
Defined.

(** A title block without an anchor, wherever it stands among the blocks:
    [_extract_url] raises [AttributeError]. *)
Theorem extract_url_needs_anchors
    (self : Crawler) (article_bs : Soup) (div : TitleDiv) :
  div ∈ title_divs article_bs ->
  anchor_href div = None ->
  _extract_url self article_bs = Err AttributeError.
Proof.
  intros Hin Hnone. unfold _extract_url, bind_outcome.
  assert (forall url, last_href (title_divs article_bs) url = Err AttributeError)
    as ->; [|done].
  induction (title_divs article_bs) as [|d divs IH]; intros url.
  - by apply elem_of_nil in Hin.
  - simpl. apply elem_of_cons in Hin as [<-|Hin].
    + by rewrite Hnone.
    + destruct (anchor_href d); [by apply IH|done].
Qed.

Lemma extract_url_needs_anchors_witness :
  _extract_url (Crawler__init__ (config_of sample_config)) anchorless_page
  = Err AttributeError.
Proof.
  apply (extract_url_needs_anchors _ anchorless_page {| anchor_href := None |}).
  - apply list_elem_of_here.
  - reflexivity.
Defined.

Section Articles.

Variable web : nat -> JSON -> Config -> Outcome Response.
Variable strip : string -> string.

Lemma parse_keeps_identity
    (full_url : string) (id : Z) (cfg : Config) (clock : nat)
    (parsed : Article) (state : HTMLParser * nat) :
  parse web strip (HTMLParser__init__ full_url id cfg, clock) = (Ok parsed, state) ->
  article_id parsed = id /\ url parsed = Some full_url /\ snd state = S clock.
Proof.
  unfold parse, make_request, _fill_article_with_text. simpl.
  destruct (web clock _ cfg) as [response|e]; [|done].
  destruct (intro_block (soup response)); [|done].
  by intros [= <- <-].
Qed.

Lemma save_articles_from
    (cfg : Config) (pages : list string) (start : Z)
    (saved saved' : list Article) (clock clock' : nat) (result : Outcome unit) :
  run_for_each (enumerate pages start) (save_article web strip cfg) (saved, clock)
  = (result, (saved', clock')) ->
  exists new,
    saved' = (saved ++ new)%list
    /\ map article_id new = count_from (start + 1) (length new)
    /\ map url new = map Some (take (length new) pages)
    /\ (length new <= length pages)%nat
    /\ (result = Ok tt -> length new = length pages).
Proof.
  revert start saved clock; induction pages as [|page pages IH];
    intros start saved clock; simpl.
  - intros [= <- <- <-]. exists []. by rewrite app_nil_r.
  - unfold run_bind, save_article at 1.
    destruct (parse web strip _) as [[parsed|e] [parser clock1]] eqn:Hparse.
    + apply parse_keeps_identity in Hparse as (Hid & Hurl & _).
      intros Hrest. apply IH in Hrest as (new & -> & Hids & Hurls & Hlen & Hall).
      exists (parsed :: new). rewrite <- app_assoc. simpl.
      rewrite Hid, Hurl, Hids, Hurls. repeat split; [lia|]. intros ?. f_equal. auto.
    + intros [= <- <- <-]. exists []. rewrite app_nil_r. simpl.
      repeat split; [lia|done].
Qed.

(** The loop of [main] hands the articles over numbered 1, 2, 3, ... in the
    order of the urls of the crawler, each with its url; when a page fails,
    the articles before it have been handed over and the loop ends there. *)
Theorem saved_articles_are_numbered
    (cfg : Config) (crawler : Crawler)
    (saved saved' : list Article) (clock clock' : nat) (result : Outcome unit) :
  save_articles web strip cfg crawler (saved, clock) = (result, (saved', clock')) ->
  exists new,
    saved' = (saved ++ new)%list
    /\ map article_id new = count_from 1 (length new)
    /\ map url new = map Some (take (length new) (urls crawler))
    /\ (length new <= length (urls crawler))%nat
    /\ (result = Ok tt -> length new = length (urls crawler)).
Proof. unfold save_articles. apply save_articles_from. Qed.

End Articles.

Lemma saved_articles_are_numbered_witness :
  exists new,
    [{| url := Some "https://volga.news/news/1"; article_id := 1;
        text := " intro  body " |};
     {| url := Some "https://volga.news/news/1"; article_id := 2;
        text := " intro  body " |};
     {| url := Some "https://volga.news/news/1"; article_id := 3;
        text := " intro  body " |};
     {| url := Some "https://volga.news/news/1"; article_id := 4;
        text := " intro  body " |}]
    = ([] ++ new)%list
    /\ map article_id new = count_from 1 (length new)
    /\ map url new = map Some (take (length new) (urls sample_crawled))
    /\ (length new <= length (urls sample_crawled))%nat
    /\ (Ok tt = Ok tt -> length new = length (urls sample_crawled)).
Proof.
  apply (saved_articles_are_numbered (same_page_web (page_linking_to "/news/1"))
           (fun s => s) (config_of sample_config) sample_crawled [] _ 0 4 (Ok tt)).
  by vm_compute.
Defined.

(** ** scrapper.py: the folder of the articles *)

Lemma parent_snoc (p : list string) (name : string) : parent (p ++ [name]) = p.
Proof. apply removelast_last. Qed.

Lemma parent_prefix (p : list string) : parent p `prefix_of` p.
Proof.
  destruct (decide (p = [])) as [->|Hp]; [done|].
  rewrite (app_removelast_last "" Hp) at 2. by apply prefix_app_r.
Qed.

Lemma path_split (p : list string) :
  parent p <> [] -> exists name, p = (parent p ++ [name])%list.
Proof.
  intros Hparent. exists (List.last p "").
  apply app_removelast_last. by intros ->.
Qed.

(** In a sound file system, what lies above a listed path is a directory. *)
Lemma sound_above (fs : gmap (list string) Node) (q k : list string) (node : Node) :
  sound fs -> k <> [] -> fs !! (q ++ k)%list = Some node -> kind fs q = Some DirNode.
Proof.
  intros Hsound. revert node.
  induction k as [|name k IH] using rev_ind; intros node Hk Hnode; [done|].
  apply Hsound in Hnode as [_ Hparent].
  rewrite app_assoc, parent_snoc in Hparent.
  destruct k as [|name' k]; [by rewrite app_nil_r in Hparent|].
  eapply IH; [done|]. unfold kind in Hparent.
  destruct (q ++ name' :: k)%list eqn:Hnil; [by destruct q|done].
Qed.

Lemma between_cons (above below q : list string) (name : string) :
  (above `prefix_of` q /\ q <> above /\ q `prefix_of` (above ++ name :: below)%list)
  <-> q = (above ++ [name])%list
      \/ ((above ++ [name])%list `prefix_of` q /\ q <> (above ++ [name])%list
          /\ q `prefix_of` ((above ++ [name]) ++ below)%list).
Proof.
  rewrite <- (app_assoc above [name] below). simpl. split.
  - intros ([k ->] & Hne & Hq). apply prefix_app_inv in Hq.
    destruct k as [|x k]; [by rewrite app_nil_r in Hne|].
    pose proof (prefix_cons_inv_1 _ _ _ _ Hq) as ->.
    apply prefix_cons_inv_2 in Hq.
    destruct k as [|y k]; [by left|right].
    repeat split.
    + exists (y :: k). by rewrite <- app_assoc.
    + intros Heq. apply (f_equal length) in Heq.
      rewrite !length_app in Heq. simpl in Heq. lia.
    + apply prefix_app, prefix_cons, Hq.
  - intros [->|([k ->] & Hne & Hq)].
    + repeat split.
      * by apply prefix_app_r.
      * intros Heq. apply (f_equal length) in Heq.
        rewrite length_app in Heq. simpl in Heq. lia.
      * apply prefix_app. apply prefix_cons, prefix_nil.
    + repeat split.
      * rewrite <- app_assoc. by apply prefix_app_r.
      * intros Heq. apply (f_equal length) in Heq.
        rewrite !length_app in Heq. simpl in Heq. lia.
      * rewrite <- !app_assoc in *. simpl in *. done.
Qed.

(** [mkdir(parents=True)] on a path that is not there, with no file above
    it: every path from [above] down to it is a directory afterwards, and
    nothing else has changed. *)
Lemma mkdir_parents_makes (below above : list string) (fs : gmap (list string) Node) :
  below <> [] ->
  fs !! (above ++ below)%list = None ->
  (forall q, q `prefix_of` (above ++ below)%list -> fs !! q <> Some FileNode) ->
  exists fs',
    mkdir_parents above below fs = (Ok tt, fs')
    /\ forall q,
         fs' !! q
         = if decide (above `prefix_of` q /\ q <> above
                      /\ q `prefix_of` (above ++ below)%list)
           then Some DirNode else fs !! q.
Proof.
  revert above fs; induction below as [|name below IH]; intros above fs Hne Hnone Hfiles;
    [done|].
  simpl. destruct below as [|name' below].
  - rewrite Hnone. eexists. split; [done|]. intros q.
    rewrite lookup_insert. case_decide as Hq; case_decide as Hbetween; try done.
    + exfalso. apply Hbetween, between_cons. by left.
    + exfalso. apply between_cons in Hbetween as [->|(Hpre & Hneq & Hq')]; [done|].
      rewrite app_nil_r in Hq'. apply Hneq. by apply (anti_symm prefix).
  - assert (forall fs0,
              fs0 !! ((above ++ [name]) ++ name' :: below)%list = None ->
              (forall q, q `prefix_of` ((above ++ [name]) ++ name' :: below)%list ->
                         fs0 !! q <> Some FileNode) ->
              (forall q, q <> (above ++ [name])%list -> fs0 !! q = fs !! q) ->
              fs0 !! (above ++ [name])%list = Some DirNode ->
              exists fs',
                mkdir_parents (above ++ [name]) (name' :: below) fs0 = (Ok tt, fs')
                /\ forall q,
                     fs' !! q
                     = if decide (above `prefix_of` q /\ q <> above
                                  /\ q `prefix_of` (above ++ name :: name' :: below)%list)
                       then Some DirNode else fs !! q) as Hstep.
    { intros fs0 Hnone0 Hfiles0 Hsame Hhere.
      destruct (IH (above ++ [name])%list fs0) as (fs' & Hrun & Hlookup); [done..|].
      exists fs'. split; [done|]. intros q. rewrite Hlookup.
      case_decide as Hin; case_decide as Hbetween; try done.
      - exfalso. apply Hbetween, between_cons. by right.
      - apply between_cons in Hbetween as [->|?]; done.
      - apply Hsame. intros ->. apply Hbetween, between_cons. by left. }
    rewrite <- (app_assoc above [name]) in Hstep. simpl in Hstep.
    assert ((above ++ [name])%list `prefix_of` (above ++ name :: name' :: below)%list)
      as Hpre.
    { apply prefix_app, prefix_cons, prefix_nil. }
    destruct (fs !! (above ++ [name])%list) as [[|]|] eqn:Hhere.
    + by apply Hfiles in Hpre.
    + apply Hstep; done.
    + apply Hstep.
      * rewrite lookup_insert_ne; [done|]. intros Heq. apply (f_equal length) in Heq.
        rewrite !length_app in Heq. simpl in Heq. lia.
      * intros q Hq. rewrite lookup_insert. case_decide; [done|by apply Hfiles].
      * intros q Hq. by rewrite lookup_insert_ne.
      * by rewrite lookup_insert_eq.
Qed.

(** When the folder is not there and no file stands in its way,
    [prepare_environment] makes it, with the folders above it that lack, and
    leaves all that was there as it was. *)
Theorem prepare_environment_creates
    (base_path : list string) (fs : gmap (list string) Node) :
  kind fs base_path = None ->
  (forall q, q `prefix_of` base_path -> fs !! q <> Some FileNode) ->
  exists fs',
    prepare_environment base_path fs = (Ok tt, fs')
    /\ fs' !! base_path = Some DirNode
    /\ (forall q node, fs !! q = Some node -> fs' !! q = Some node)
    /\ (forall q node, fs' !! q = Some node ->
          fs !! q = Some node \/ (q `prefix_of` base_path /\ node = DirNode)).
Proof.
  intros Hnone Hfiles. unfold prepare_environment, run_bind. rewrite Hnone.
  assert (base_path <> []) as Hne by (by intros ->).
  assert (fs !! base_path = None) as Hnone'.
  { by destruct base_path. }
  destruct (mkdir_parents_makes base_path [] fs) as (fs' & -> & Hlookup); [done..|].
  exists fs'. split; [done|]. simpl in Hlookup. repeat split.
  - rewrite Hlookup. case_decide as Hin; [done|]. exfalso. apply Hin.
    repeat split; [apply prefix_nil|done..].
  - intros q node Hq. rewrite Hlookup. case_decide as Hin; [|done].
    destruct Hin as (_ & _ & Hpre). destruct node; [|done].
    by apply Hfiles in Hpre.
  - intros q node. rewrite Hlookup. case_decide as Hin.
    + intros [= <-]. right. by destruct Hin as (_ & _ & ?).
    + by left.
Qed.

Lemma prepare_environment_creates_witness :
  exists fs',
    prepare_environment ["project"; "out"; "articles"] project_tree = (Ok tt, fs')
    /\ fs' !! ["project"; "out"; "articles"] = Some DirNode
    /\ (forall q node, project_tree !! q = Some node -> fs' !! q = Some node)
    /\ (forall q node, fs' !! q = Some node ->
          project_tree !! q = Some node
          \/ (q `prefix_of` ["project"; "out"; "articles"] /\ node = DirNode)).
Proof.
  apply prepare_environment_creates.
  - by vm_compute.
  - intros q [k Hk].
    destruct q as [|a [|b [|c [|? ?]]]]; simpl in Hk; simplify_eq; by vm_compute.
Defined.

(** When the folder is there, [prepare_environment] removes the folder above
    it: afterwards the folder is there and empty, and whatever else lay next
    to it, in the folder above, is gone. Outside the folder above, nothing
    has changed. *)
Theorem prepare_environment_clears_parent
    (base_path : list string) (fs : gmap (list string) Node) (node : Node) :
  sound fs ->
  fs !! base_path = Some node ->
  parent base_path <> [] ->
  exists fs',
    prepare_environment base_path fs = (Ok tt, fs')
    /\ fs' !! base_path = Some DirNode
    /\ (forall q, parent base_path `prefix_of` q -> q <> parent base_path ->
                  q <> base_path -> fs' !! q = None)
    /\ (forall q, ~ parent base_path `prefix_of` q -> fs' !! q = fs !! q).
Proof.
  intros Hsound Hnode Hparent.
  destruct (path_split base_path Hparent) as [name Hbase].
  set (d := parent base_path) in *.
  assert (base_path <> []) as Hne by (rewrite Hbase; by destruct d).
  assert (kind fs d = Some DirNode) as Hd.
  { apply (sound_above fs d [name] node); [done..|by rewrite <- Hbase]. }
  unfold prepare_environment, run_bind, rmtree.
  assert (kind fs base_path = Some node) as -> by (by destruct base_path).
  fold d. rewrite Hd. destruct d as [|d0 d'] eqn:Hdeq; [done|]. rewrite <- Hdeq in *.
  clear Hdeq d0 d'.
  set (fs1 := filter (fun entry => ~ d `prefix_of` fst entry) fs).
  assert (forall q, fs1 !! q = if decide (d `prefix_of` q) then None else fs !! q)
    as Hfs1.
  { intros q. unfold fs1. rewrite map_lookup_filter.
    destruct (fs !! q) as [n|]; simpl; [|by case_decide].
    rewrite option_guard_decide. simpl. by repeat case_decide. }
  assert (d `prefix_of` base_path) as Hdbase by apply parent_prefix.
  assert (forall q, q `prefix_of` base_path -> ~ d `prefix_of` q ->
                    q <> [] -> fs !! q = Some DirNode) as Habove.
  { intros q Hq Hnot Hqne.
    destruct (prefix_weak_total q d base_path Hq Hdbase) as [[k Hk]|]; [|done].
    assert (k <> []) as Hkne.
    { intros ->. rewrite app_nil_r in Hk. subst q. by apply Hnot. }
    assert (kind fs q = Some DirNode) as Hkind.
    { destruct (decide (d = [])) as [?|Hdne]; [done|].
      apply (sound_above fs q k DirNode); [done..|].
      rewrite <- Hk. by destruct d. }
    by destruct q. }
  destruct (mkdir_parents_makes base_path [] fs1) as (fs' & -> & Hlookup).
  - done.
  - simpl. rewrite Hfs1. by case_decide.
  - simpl. intros q Hq. rewrite Hfs1. case_decide as Hdq; [done|].
    destruct (decide (q = [])) as [->|Hqne].
    + intros Hroot. by apply Hsound in Hroot as [? _].
    + by rewrite (Habove q).
  - exists fs'. split; [done|]. simpl in Hlookup. repeat split.
    + rewrite Hlookup. case_decide as Hin; [done|]. exfalso. apply Hin.
      repeat split; [apply prefix_nil|done..].
    + intros q Hdq Hqd Hqb. rewrite Hlookup, Hfs1.
      case_decide as Hin; [|by case_decide].
      exfalso. destruct Hin as (_ & _ & Hq). rewrite Hbase in Hq.
      destruct Hdq as [k ->]. apply prefix_app_inv in Hq.
      destruct k as [|x k]; [by rewrite app_nil_r in Hqd|].
      pose proof (prefix_cons_inv_1 _ _ _ _ Hq) as ->.
      apply prefix_cons_inv_2, prefix_nil_inv in Hq as ->. by rewrite Hbase in Hqb.
    + intros q Hnot. rewrite Hlookup, Hfs1.
      case_decide as Hin; [|by case_decide].
      destruct Hin as (_ & Hqne & Hq). by rewrite (Habove q).
Qed.

Lemma prepare_environment_clears_parent_witness :
  exists fs',
    prepare_environment ["project"; "tmp"; "articles"] project_tree = (Ok tt, fs')
    /\ fs' !! ["project"; "tmp"; "articles"] = Some DirNode
    /\ (forall q, parent ["project"; "tmp"; "articles"] `prefix_of` q ->
                  q <> parent ["project"; "tmp"; "articles"] ->
                  q <> ["project"; "tmp"; "articles"] -> fs' !! q = None)
    /\ (forall q, ~ parent ["project"; "tmp"; "articles"] `prefix_of` q ->
                  fs' !! q = project_tree !! q).
Proof.
  apply (prepare_environment_clears_parent _ _ DirNode).
  - intros p node.
    destruct p as [|a [|b [|c [|e [|? ?]]]]]; intros Hp;
      (split; [by (discriminate || (intros ?; by vm_compute in Hp))|]);
      simpl.
    all: try by vm_compute in Hp.
    all: unfold project_tree in *; simpl in *.
    all: repeat (rewrite lookup_insert in Hp; case_decide; simplify_eq; try done);
         try (by vm_compute).
  - by vm_compute.
  - by vm_compute.
Defined.

End ScrapperProperties.
